(** * The Datadog propagator of opentelemetry-go-datadog-propagator

    A shallow embedding of [propagator.go] (package [datadog]) together
    with the library routines it calls ([strconv], [fmt], [encoding/hex]
    and the identifier types of [go.opentelemetry.io/otel/trace]), and
    the properties of the identifier codec, the extractor and the
    injector.

    Conventions: a Go [string] is a [String.string] (a sequence of 8-bit
    characters, so [String.length] is Go's [len]); a [uint64] or an [int]
    is a [Z] whose wrap-around is written out; a byte is a [Z] below 256;
    a [(T, error)] result is a pair whose second component is [None] for
    a [nil] error. *)

From Stdlib Require Import ZArith String Ascii List Bool Lia.
From stdpp Require Import gmap strings.
Import ListNotations.

Local Open Scope string_scope.
Local Open Scope Z_scope.

(** ** Bytes and strings *)

(** The numeric value of a character of a Go string. *)
Definition byteOf (c : ascii) : Z := Z.of_N (N_of_ascii c).

(** [s[n:]] for [n <= len(s)]. *)
Fixpoint sliceFrom (n : nat) (s : string) : string :=
  match n, s with
  | O, _ => s
  | S n', String _ s' => sliceFrom n' s'
  | S _, EmptyString => EmptyString
  end.

(** [strings.Repeat("0", n)]. *)
Fixpoint zeros (n : nat) : string :=
  match n with
  | O => EmptyString
  | S n' => String "0" (zeros n')
  end.

(** ** Package strconv *)
Module strconv.

Inductive NumError := ErrSyntax | ErrRange | ErrBase.

Definition maxUint64 : Z := 2 ^ 64 - 1.

(** Arithmetic of [uint64]. *)
Definition wrap64 (x : Z) : Z := x mod 2 ^ 64.

(** [lower(c) = c | ('x' - 'X')]. *)
Definition lower (c : Z) : Z := Z.lor c 32.

(** The digit a byte stands for, before the comparison with the base. *)
Definition digitVal (c : Z) : option Z :=
  if (48 <=? c) && (c <=? 57) then Some (c - 48)
  else if (97 <=? lower c) && (lower c <=? 122) then Some (lower c - 97 + 10)
  else None.

(** The loop of [ParseUint] over the bytes of the text; [n] is the
    value accumulated so far. *)
Fixpoint parseLoop (base cutoff maxVal : Z) (s : string) (n : Z)
  : Z * option NumError :=
  match s with
  | EmptyString => (n, None)
  | String c s' =>
      match digitVal (byteOf c) with
      | None => (0, Some ErrSyntax)
      | Some d =>
          if d >=? base then (0, Some ErrSyntax)
          else if n >=? cutoff then (maxVal, Some ErrRange)
          else
            let n0 := wrap64 (n * base) in
            let n1 := wrap64 (n0 + d) in
            if (n1 <? n0) || (n1 >? maxVal) then (maxVal, Some ErrRange)
            else parseLoop base cutoff maxVal s' n1
      end
  end.

(** [ParseUint(s, base, bitSize)] for an explicit base between 2 and
    36.  The prefix-detecting base 0 (and with it the underscore
    separators) is answered with a base error: the propagator only
    asks for bases 10 and 16. *)
Definition ParseUint (s : string) (base bitSize : Z) : Z * option NumError :=
  if String.eqb s "" then (0, Some ErrSyntax)
  else if negb ((2 <=? base) && (base <=? 36)) then (0, Some ErrBase)
  else
    let bitSize := if bitSize =? 0 then 64 else bitSize in
    let cutoff := maxUint64 / base + 1 in
    let maxVal := wrap64 (wrap64 (Z.shiftl 1 bitSize) - 1) in
    parseLoop base cutoff maxVal s 0.

(** [ParseInt(s, base, bitSize)]; [int64(un)] is written out. *)
Definition ParseInt (s : string) (base bitSize : Z) : Z * option NumError :=
  match s with
  | EmptyString => (0, Some ErrSyntax)
  | String c0 rest =>
      let neg := Ascii.eqb c0 "-" in
      let s1 := if Ascii.eqb c0 "+" || neg then rest else s in
      let '(un, err) := ParseUint s1 base bitSize in
      match err with
      | Some ErrSyntax => (0, Some ErrSyntax)
      | Some ErrBase => (0, Some ErrBase)
      | _ =>
          let bitSize := if bitSize =? 0 then 64 else bitSize in
          let cutoff := Z.shiftl 1 (bitSize - 1) in
          if negb neg && (un >=? cutoff) then (cutoff - 1, Some ErrRange)
          else if neg && (un >? cutoff) then (- cutoff, Some ErrRange)
          else
            let n := if un >=? 2 ^ 63 then un - 2 ^ 64 else un in
            (if neg then (if n =? - 2 ^ 63 then n else - n) else n, None)
      end
  end.

(** The fast path of [Atoi]: decimal digits only, no overflow possible. *)
Fixpoint atoiLoop (s : string) (n : Z) : Z * option NumError :=
  match s with
  | EmptyString => (n, None)
  | String c s' =>
      let ch := (byteOf c - 48) mod 256 in
      if ch >? 9 then (0, Some ErrSyntax)
      else atoiLoop s' (n * 10 + ch)
  end.

(** [Atoi(s)] on a platform whose [int] has 64 bits. *)
Definition Atoi (s : string) : Z * option NumError :=
  let sLen := String.length s in
  if (0 <? sLen)%nat && (sLen <? 19)%nat then
    match s with
    | EmptyString => (0, Some ErrSyntax)
    | String c0 rest =>
        let signed := Ascii.eqb c0 "-" || Ascii.eqb c0 "+" in
        let s1 := if signed then rest else s in
        if signed && (String.length s1 <? 1)%nat then (0, Some ErrSyntax)
        else
          match atoiLoop s1 0 with
          | (n, None) => (if Ascii.eqb c0 "-" then - n else n, None)
          | (_, Some e) => (0, Some e)
          end
    end
  else ParseInt s 10 0.

(** The table [digits] of [itoa.go]. *)
Definition digits : string := "0123456789abcdefghijklmnopqrstuvwxyz".

(** [digits[d]]. *)
Definition digitChar (d : Z) : ascii :=
  match String.get (Z.to_nat d) digits with
  | Some c => c
  | None => "0"%char
  end.

(** The digit loop of [formatBits]: digits are produced from the least
    significant one and written in front of [a].  The buffer of
    [formatBits] holds 65 bytes, which bounds the number of turns. *)
Fixpoint formatBits (turns : nat) (u base : Z) (a : string) : string :=
  match turns with
  | O => String (digitChar u) a
  | S turns' =>
      if u >=? base
      then formatBits turns' (u / base) base (String (digitChar (u mod base)) a)
      else String (digitChar u) a
  end.

(** [FormatUint(u, base)]. *)
Definition FormatUint (u base : Z) : string := formatBits 64 u base "".

End strconv.

(** ** Package fmt *)
Module fmt.

(** [Sprintf("%0<width>s", s)]: the text is padded on the left with
    the zero flag's pad byte up to [width] characters.  The width is
    counted in characters, which for the ASCII texts passed here is
    the same as Go's count of runes. *)
Definition Sprintf_0s (width : nat) (s : string) : string :=
  zeros (width - String.length s) +:+ s.

End fmt.

(** ** Package encoding/hex *)
Module hex.

Definition hextable : string := "0123456789abcdef".

(** [hextable[v]]. *)
Definition hexChar (v : Z) : ascii :=
  match String.get (Z.to_nat v) hextable with
  | Some c => c
  | None => "0"%char
  end.

(** [EncodeToString(src)]: two characters per byte, high nibble first. *)
Fixpoint EncodeToString (src : list Z) : string :=
  match src with
  | [] => EmptyString
  | v :: src' =>
      String (hexChar (Z.shiftr v 4))
        (String (hexChar (Z.land v 15)) (EncodeToString src'))
  end.

(** [reverseHexTable[c]], [None] where the table holds [0xff]. *)
Definition fromHexChar (c : Z) : option Z :=
  if (48 <=? c) && (c <=? 57) then Some (c - 48)
  else if (97 <=? c) && (c <=? 102) then Some (c - 97 + 10)
  else if (65 <=? c) && (c <=? 70) then Some (c - 65 + 10)
  else None.

(** [DecodeString(s)]; [None] stands for either of its errors (an
    invalid byte or an odd length). *)
Fixpoint DecodeString (s : string) : option (list Z) :=
  match s with
  | EmptyString => Some []
  | String _ EmptyString => None
  | String p (String q s') =>
      match fromHexChar (byteOf p), fromHexChar (byteOf q) with
      | Some a, Some b =>
          match DecodeString s' with
          | Some rest => Some (Z.lor (Z.shiftl a 4) b :: rest)
          | None => None
          end
      | _, _ => None
      end
  end.

End hex.

(** ** Package go.opentelemetry.io/otel/trace *)
Module trace.

(** [TraceID] is [[16]byte] and [SpanID] is [[8]byte]. *)
Definition TraceID : Type := list Z.
Definition SpanID : Type := list Z.

Definition nilTraceID : TraceID := repeat 0 16.
Definition nilSpanID : SpanID := repeat 0 8.

(** [bytes.Equal]. *)
Fixpoint bytesEqual (a b : list Z) : bool :=
  match a, b with
  | [], [] => true
  | x :: a', y :: b' => (x =? y) && bytesEqual a' b'
  | _, _ => false
  end.

Definition TraceID_IsValid (t : TraceID) : bool := negb (bytesEqual t nilTraceID).
Definition SpanID_IsValid (s : SpanID) : bool := negb (bytesEqual s nilSpanID).

Definition TraceID_String (t : TraceID) : string := hex.EncodeToString t.
Definition SpanID_String (s : SpanID) : string := hex.EncodeToString s.

Inductive idError :=
| errInvalidHexID
| errInvalidTraceIDLength
| errInvalidSpanIDLength
| errNilTraceID
| errNilSpanID.

(** The test [decodeHex] makes on one character: a lower-case hex
    digit.  Go ranges over runes; a byte outside ASCII belongs to a rune
    outside both ranges, so the test by bytes accepts the same texts. *)
Definition lowerHexChar (r : ascii) : bool :=
  ((97 <=? byteOf r) && (byteOf r <=? 102))
  || ((48 <=? byteOf r) && (byteOf r <=? 57)).

(** The loop of [decodeHex] over the characters of the text. *)
Fixpoint lowerHexOnly (h : string) : bool :=
  match h with
  | EmptyString => true
  | String r h' => lowerHexChar r && lowerHexOnly h'
  end.

(** [copy(dst, src)]. *)
Definition copy (dst src : list Z) : list Z :=
  firstn (List.length dst) src ++ skipn (List.length src) dst.

(** [decodeHex(h, b)], returning the new content of [b]. *)
Definition decodeHex (h : string) (b : list Z) : option (list Z) :=
  if lowerHexOnly h then
    match hex.DecodeString h with
    | Some decoded => Some (copy b decoded)
    | None => None
    end
  else None.

Definition TraceIDFromHex (h : string) : TraceID * option idError :=
  let t := nilTraceID in
  if negb (String.length h =? 32)%nat then (t, Some errInvalidTraceIDLength)
  else
    match decodeHex h t with
    | None => (t, Some errInvalidHexID)
    | Some t' =>
        if negb (TraceID_IsValid t') then (t', Some errNilTraceID)
        else (t', None)
    end.

Definition SpanIDFromHex (h : string) : SpanID * option idError :=
  let s := nilSpanID in
  if negb (String.length h =? 16)%nat then (s, Some errInvalidSpanIDLength)
  else
    match decodeHex h s with
    | None => (s, Some errInvalidHexID)
    | Some s' =>
        if negb (SpanID_IsValid s') then (s', Some errNilSpanID)
        else (s', None)
    end.

Definition FlagsSampled : Z := 1.

(** [SpanContextConfig] and [SpanContext].  The trace state, which the
    propagator neither reads nor writes, is left out of both. *)
Record SpanContextConfig := {
  cfgTraceID : TraceID;
  cfgSpanID : SpanID;
  cfgTraceFlags : Z;
  cfgRemote : bool
}.

Record SpanContext := {
  traceID : TraceID;
  spanID : SpanID;
  traceFlags : Z;
  remote : bool
}.

(** The zero values [SpanContextConfig{}] and [SpanContext{}]. *)
Definition zeroConfig : SpanContextConfig :=
  {| cfgTraceID := nilTraceID; cfgSpanID := nilSpanID;
     cfgTraceFlags := 0; cfgRemote := false |}.

Definition zeroSpanContext : SpanContext :=
  {| traceID := nilTraceID; spanID := nilSpanID;
     traceFlags := 0; remote := false |}.

Definition NewSpanContext (config : SpanContextConfig) : SpanContext :=
  {| traceID := cfgTraceID config; spanID := cfgSpanID config;
     traceFlags := cfgTraceFlags config; remote := cfgRemote config |}.

Definition IsValid (sc : SpanContext) : bool :=
  TraceID_IsValid (traceID sc) && SpanID_IsValid (spanID sc).

Definition IsSampled (sc : SpanContext) : bool :=
  Z.land (traceFlags sc) FlagsSampled =? FlagsSampled.

Definition WithRemote (sc : SpanContext) (r : bool) : SpanContext :=
  {| traceID := traceID sc; spanID := spanID sc;
     traceFlags := traceFlags sc; remote := r |}.

End trace.

(** ** The collaborators: carrier and ambient context *)

(** [propagation.TextMapCarrier]; [Set_] returns the carrier after the
    write. *)
Class TextMapCarrier (C : Type) := {
  Get : C -> string -> string;
  Set_ : C -> string -> string -> C;
  Keys : C -> list string
}.

(** [propagation.MapCarrier], a [map[string]string]: a missing key reads
    as the empty string. *)
#[export] Instance MapCarrier : TextMapCarrier (gmap string string) := {
  Get c key := default EmptyString (c !! key);
  Set_ c key value := <[key := value]> c;
  Keys c := elements (dom c)
}.

(** What the propagator needs of a [context.Context]: the span context
    of the current span, and the context derived from a parent by
    installing a remote span context. *)
Class AmbientContext (Ctx : Type) := {
  SpanContextFromContext : Ctx -> trace.SpanContext;
  ContextWithRemoteSpanContext : Ctx -> trace.SpanContext -> Ctx
}.

(** A [context.Context] as the chain of derivations it is built by. *)
Inductive Context :=
| Background
| WithValue (parent : Context) (key val : string)
| WithSpan (parent : Context) (sc : trace.SpanContext).

(** The innermost span of the chain; without one the no-op span, whose
    span context is the zero value. *)
Fixpoint spanContextOf (ctx : Context) : trace.SpanContext :=
  match ctx with
  | Background => trace.zeroSpanContext
  | WithValue parent _ _ => spanContextOf parent
  | WithSpan _ sc => sc
  end.

#[export] Instance ChainContext : AmbientContext Context := {
  SpanContextFromContext := spanContextOf;
  ContextWithRemoteSpanContext parent sc := WithSpan parent (trace.WithRemote sc true)
}.

(** ** Package datadog: propagator.go *)
Module datadog.

Definition traceIDHeaderKey : string := "x-datadog-trace-id".
Definition parentIDHeaderKey : string := "x-datadog-parent-id".
Definition priorityHeaderKey : string := "x-datadog-sampling-priority".

Definition notSampled : string := "0".
Definition isSampled : string := "1".

Definition empty : trace.SpanContext := trace.zeroSpanContext.

Inductive error :=
| errMalformedTraceID
| errMalformedSpanID
| errInvalidTraceIDHeader
| errInvalidSpanIDHeader
| errInvalidSamplingPriorityHeader.

(** [convertOTtoDD]: OpenTelemetry hex identifier to Datadog decimal. *)
Definition convertOTtoDD (id : string) : string :=
  if (String.length id <? 16)%nat then EmptyString
  else
    let id := if (16 <? String.length id)%nat then sliceFrom 16 id else id in
    match strconv.ParseUint id 16 64 with
    | (intValue, None) => strconv.FormatUint intValue 10
    | (_, Some _) => EmptyString
    end.

(** [convertDDtoOT]: Datadog decimal identifier to OpenTelemetry hex. *)
Definition convertDDtoOT (id : string) : string * bool :=
  match strconv.ParseUint id 10 64 with
  | (u, None) => (strconv.FormatUint u 16, true)
  | (_, Some _) => (EmptyString, false)
  end.

(** [extract]; [scc] is threaded through as its three fields. *)
Definition extract (traceID spanID sampled : string)
  : trace.SpanContext * option error :=
  let scc := trace.zeroConfig in
  match convertDDtoOT traceID with
  | (_, false) => (empty, Some errMalformedTraceID)
  | (traceID, true) =>
      let r1 :=
        if negb (String.eqb traceID "") then
          let id :=
            if (String.length traceID <? 32)%nat
            then fmt.Sprintf_0s 32 traceID else traceID in
          trace.TraceIDFromHex id
        else (trace.cfgTraceID scc, None) in
      match r1 with
      | (_, Some _) => (empty, Some errInvalidTraceIDHeader)
      | (sccTraceID, None) =>
          match convertDDtoOT spanID with
          | (_, false) => (empty, Some errMalformedSpanID)
          | (spanID, true) =>
              let r2 :=
                if negb (String.eqb spanID "") then
                  let id :=
                    if (String.length spanID <? 16)%nat
                    then fmt.Sprintf_0s 16 spanID else spanID in
                  trace.SpanIDFromHex id
                else (trace.cfgSpanID scc, None) in
              match r2 with
              | (_, Some _) => (empty, Some errInvalidSpanIDHeader)
              | (sccSpanID, None) =>
                  match strconv.Atoi sampled with
                  | (_, Some _) => (empty, Some errInvalidSamplingPriorityHeader)
                  | (sampledInt, None) =>
                      let sccTraceFlags :=
                        if sampledInt >=? 1 then trace.FlagsSampled
                        else trace.cfgTraceFlags scc in
                      (trace.NewSpanContext
                         {| trace.cfgTraceID := sccTraceID;
                            trace.cfgSpanID := sccSpanID;
                            trace.cfgTraceFlags := sccTraceFlags;
                            trace.cfgRemote := trace.cfgRemote scc |},
                       None)
                  end
              end
          end
      end
  end.

Section Propagator.
Context {C : Type} `{TextMapCarrier C} {Ctx : Type} `{AmbientContext Ctx}.

(** [Propagator.Inject]; the result is the carrier after the call. *)
Definition Inject (ctx : Ctx) (carrier : C) : C :=
  let sc := SpanContextFromContext ctx in
  if negb (trace.TraceID_IsValid (trace.traceID sc))
     || negb (trace.SpanID_IsValid (trace.spanID sc))
  then carrier
  else
    let traceID := trace.TraceID_String (trace.traceID sc) in
    let parentID := trace.SpanID_String (trace.spanID sc) in
    if String.eqb traceID "" || String.eqb parentID "" then carrier
    else
      let samplingFlag :=
        if trace.IsSampled sc then isSampled else notSampled in
      let carrier := Set_ carrier traceIDHeaderKey (convertOTtoDD traceID) in
      let carrier := Set_ carrier parentIDHeaderKey (convertOTtoDD parentID) in
      Set_ carrier priorityHeaderKey samplingFlag.

(** [Propagator.Extract]. *)
Definition Extract (ctx : Ctx) (carrier : C) : Ctx :=
  let traceID := Get carrier traceIDHeaderKey in
  let spanID := Get carrier parentIDHeaderKey in
  let sampled := Get carrier priorityHeaderKey in
  let '(sc, err) := extract traceID spanID sampled in
  if negb (match err with None => true | Some _ => false end)
     || negb (trace.IsValid sc)
  then ctx
  else ContextWithRemoteSpanContext ctx sc.

(** [Propagator.Fields]. *)
Definition Fields : list string :=
  [traceIDHeaderKey; parentIDHeaderKey; priorityHeaderKey].

End Propagator.

End datadog.

(** ** Vocabulary of the properties *)

(** Lines 91-104 of [extract] on their own: the trace identifier the
    first step leaves in [scc], or the error it returns. *)
Definition traceIDStep (traceID : string) : trace.TraceID + datadog.error :=
  match datadog.convertDDtoOT traceID with
  | (_, false) => inr datadog.errMalformedTraceID
  | (traceID, true) =>
      if negb (String.eqb traceID "") then
        let id :=
          if (String.length traceID <? 32)%nat
          then fmt.Sprintf_0s 32 traceID else traceID in
        match trace.TraceIDFromHex id with
        | (t, None) => inl t
        | (_, Some _) => inr datadog.errInvalidTraceIDHeader
        end
      else inl trace.nilTraceID
  end.

(** Lines 106-119 of [extract] on their own. *)
Definition spanIDStep (spanID : string) : trace.SpanID + datadog.error :=
  match datadog.convertDDtoOT spanID with
  | (_, false) => inr datadog.errMalformedSpanID
  | (spanID, true) =>
      if negb (String.eqb spanID "") then
        let id :=
          if (String.length spanID <? 16)%nat
          then fmt.Sprintf_0s 16 spanID else spanID in
        match trace.SpanIDFromHex id with
        | (t, None) => inl t
        | (_, Some _) => inr datadog.errInvalidSpanIDHeader
        end
      else inl trace.nilSpanID
  end.

(** The text of a 64-bit value as exactly 16 hex characters. *)
Definition hex16 (v : Z) : string :=
  fmt.Sprintf_0s 16 (strconv.FormatUint v 16).


(** A byte of a Go array: a value from 0 to 255. *)
Definition isByte (v : Z) : bool := (0 <=? v) && (v <? 256).

(** Every element of the list is a byte. *)
Definition bytesOK (l : list Z) : bool := forallb isByte l.

(** The unsigned integer a byte array stands for, most significant byte
    first (the order in which [String] writes an identifier). *)
Fixpoint beValue (l : list Z) : Z :=
  match l with
  | [] => 0
  | v :: l' => v * 256 ^ Z.of_nat (List.length l') + beValue l'
  end.

(** ** Texts *)

Lemma append_nil_l (s : string) : "" +:+ s = s.
Proof. reflexivity. Qed.

Lemma append_cons (c : ascii) (s t : string) :
  String c s +:+ t = String c (s +:+ t).
Proof. reflexivity. Qed.

Lemma append_nil_r (s : string) : s +:+ "" = s.
Proof.
  induction s as [|c s IH]; [reflexivity|].
  rewrite append_cons, IH. reflexivity.
Qed.

Lemma append_assoc (s t u : string) : (s +:+ t) +:+ u = s +:+ (t +:+ u).
Proof.
  induction s as [|c s IH]; [reflexivity|].
  rewrite !append_cons, IH. reflexivity.
Qed.

Lemma length_append (s t : string) :
  String.length (s +:+ t) = (String.length s + String.length t)%nat.
Proof.
  induction s as [|c s IH]; [reflexivity|].
  rewrite append_cons. cbn [String.length]. rewrite IH. reflexivity.
Qed.

Lemma length_zeros n : String.length (zeros n) = n.
Proof.
  induction n as [|n IH]; [reflexivity|].
  cbn [zeros String.length]. rewrite IH. reflexivity.
Qed.

(** ** The number codec of strconv *)
Section Strconv.
Import strconv.

Lemma digitVal_digitChar d :
  0 <= d < 36 -> digitVal (byteOf (digitChar d)) = Some d.
Proof.
  intros Hd.
  assert (Hn : exists n, d = Z.of_nat n /\ (n < 36)%nat)
    by (exists (Z.to_nat d); lia).
  destruct Hn as (n & -> & Hn).
  do 36 (destruct n as [|n]; [vm_compute; reflexivity|]).
  lia.
Qed.

Lemma wrap64_small x : 0 <= x <= maxUint64 -> wrap64 x = x.
Proof.
  unfold wrap64, maxUint64. intros Hx. apply Z.mod_small. lia.
Qed.

(** One turn of the parsing loop on a digit that fits. *)
Lemma parseLoop_digit b d s n :
  2 <= b <= 36 -> 0 <= d < b -> 0 <= n -> n * b + d <= maxUint64 ->
  parseLoop b (maxUint64 / b + 1) maxUint64 (String (digitChar d) s) n
  = parseLoop b (maxUint64 / b + 1) maxUint64 s (n * b + d).
Proof.
  intros Hb Hd Hn Hfit. cbn [parseLoop].
  rewrite digitVal_digitChar by lia.
  assert (Hq : n <= maxUint64 / b)
    by (apply Z.div_le_lower_bound; nia).
  destruct (d >=? b) eqn:E1; [lia|].
  destruct (n >=? maxUint64 / b + 1) eqn:E2; [lia|].
  cbv zeta.
  rewrite (wrap64_small (n * b)) by nia.
  rewrite (wrap64_small (n * b + d)) by nia.
  destruct (n * b + d <? n * b) eqn:E3; [lia|].
  destruct (n * b + d >? maxUint64) eqn:E4; [lia|].
  reflexivity.
Qed.

Lemma parseLoop_app b c m s1 s2 n :
  parseLoop b c m (s1 +:+ s2) n
  = match parseLoop b c m s1 n with
    | (n', None) => parseLoop b c m s2 n'
    | r => r
    end.
Proof.
  revert n. induction s1 as [|ch s1 IH]; intros n.
  - reflexivity.
  - rewrite append_cons. cbn [parseLoop].
    destruct (digitVal (byteOf ch)) as [d|]; [|reflexivity].
    destruct (d >=? b); [reflexivity|].
    destruct (n >=? c); [reflexivity|].
    cbv zeta.
    destruct ((wrap64 (wrap64 (n * b) + d) <? wrap64 (n * b))
              || (wrap64 (wrap64 (n * b) + d) >? m)); [reflexivity|].
    apply IH.
Qed.

Lemma formatBits_app k u b a :
  formatBits k u b a = formatBits k u b "" +:+ a.
Proof.
  revert u a. induction k as [|k IH]; intros u a; cbn [formatBits].
  - reflexivity.
  - destruct (u >=? b); [|reflexivity].
    rewrite IH. rewrite (IH _ (String _ "")).
    rewrite append_assoc. reflexivity.
Qed.

Lemma formatBits_nonempty k u b a : formatBits k u b a <> "".
Proof.
  revert u a. induction k as [|k IH]; intros u a; cbn [formatBits].
  - discriminate.
  - destruct (u >=? b); [apply IH | discriminate].
Qed.

(** Parsing the digits of [u] gives [u] back, in any base. *)
Lemma parseLoop_formatBits b k u :
  2 <= b <= 36 -> 0 <= u <= maxUint64 -> u < b ^ (Z.of_nat k + 1) ->
  parseLoop b (maxUint64 / b + 1) maxUint64 (formatBits k u b "") 0 = (u, None).
Proof.
  intros Hb. revert u. induction k as [|k IH]; intros u Hu Hk; cbn [formatBits].
  - change (Z.of_nat 0 + 1) with 1 in Hk. rewrite Z.pow_1_r in Hk.
    rewrite parseLoop_digit by lia. reflexivity.
  - destruct (u >=? b) eqn:E.
    + rewrite formatBits_app, parseLoop_app.
      assert (Hdiv : 0 <= u / b <= u).
      { split; [apply Z.div_pos; lia|].
        apply Z.div_le_upper_bound; nia. }
      rewrite IH.
      * pose proof (Z.mod_pos_bound u b ltac:(lia)).
        pose proof (Z.div_mod u b ltac:(lia)).
        rewrite parseLoop_digit by nia.
        cbn [parseLoop]. f_equal. nia.
      * lia.
      * apply Z.div_lt_upper_bound; [lia|].
        replace (Z.of_nat (S k) + 1) with (Z.succ (Z.of_nat k + 1)) in Hk by lia.
        rewrite Z.pow_succ_r in Hk by lia. exact Hk.
    + rewrite parseLoop_digit by lia. reflexivity.
Qed.

Lemma ParseUint_FormatUint b u :
  2 <= b <= 36 -> 0 <= u < 2 ^ 64 ->
  ParseUint (FormatUint u b) b 64 = (u, None).
Proof.
  intros Hb Hu. unfold ParseUint, FormatUint.
  destruct (String.eqb_spec (formatBits 64 u b "") "") as [E|_];
    [now apply formatBits_nonempty in E|].
  replace ((2 <=? b) && (b <=? 36)) with true
    by (symmetry; apply andb_true_iff; split; lia).
  cbn [negb]. change (64 =? 0) with false. cbv iota zeta.
  change (wrap64 (wrap64 (Z.shiftl 1 64) - 1)) with maxUint64.
  apply parseLoop_formatBits; [lia | unfold maxUint64; lia |].
  change (Z.of_nat 64 + 1) with 65.
  apply Z.lt_le_trans with (2 ^ 65); [lia|].
  apply Z.pow_le_mono_l. lia.
Qed.

Lemma parseLoop_zeros b k s :
  2 <= b <= 36 ->
  parseLoop b (maxUint64 / b + 1) maxUint64 (zeros k +:+ s) 0
  = parseLoop b (maxUint64 / b + 1) maxUint64 s 0.
Proof.
  intros Hb. induction k as [|k IH]; [reflexivity|].
  cbn [zeros]. rewrite append_cons.
  change "0"%char with (digitChar 0).
  rewrite parseLoop_digit by (unfold maxUint64; lia).
  exact IH.
Qed.

(** Leading zeros do not change what [ParseUint] reads. *)
Lemma ParseUint_zeros b k s :
  2 <= b <= 36 -> s <> "" ->
  ParseUint (zeros k +:+ s) b 64 = ParseUint s b 64.
Proof.
  intros Hb Hs. unfold ParseUint.
  destruct (String.eqb_spec s "") as [E|_]; [contradiction|].
  destruct (String.eqb_spec (zeros k +:+ s) "") as [E|_].
  - apply (f_equal String.length) in E.
    rewrite length_append in E. destruct s; [contradiction|].
    cbn [String.length] in E. lia.
  - replace ((2 <=? b) && (b <=? 36)) with true
      by (symmetry; apply andb_true_iff; split; lia).
    cbn [negb]. change (64 =? 0) with false. cbv iota zeta.
    change (wrap64 (wrap64 (Z.shiftl 1 64) - 1)) with maxUint64.
    apply parseLoop_zeros. exact Hb.
Qed.

(** A value below [b ^ j] is written with at most [j] digits. *)
Lemma length_formatBits b k u j a :
  2 <= b -> 0 <= u < b ^ Z.of_nat j -> (1 <= j)%nat ->
  (String.length (formatBits k u b a) <= j + String.length a)%nat.
Proof.
  intros Hb. revert u j a.
  induction k as [|k IH]; intros u j a Hu Hj; cbn [formatBits].
  - cbn [String.length]. lia.
  - destruct (u >=? b) eqn:E; [|cbn [String.length]; lia].
    destruct j as [|[|j]]; [lia| |].
    + change (Z.of_nat 1) with 1 in Hu. rewrite Z.pow_1_r in Hu. lia.
    + specialize (IH (u / b) (S j) (String (digitChar (u mod b)) a)).
      cbn [String.length] in IH.
      assert (Hq : 0 <= u / b < b ^ Z.of_nat (S j)).
      { split; [apply Z.div_pos; lia|].
        apply Z.div_lt_upper_bound; [lia|].
        rewrite <- Z.pow_succ_r by lia.
        replace (Z.succ (Z.of_nat (S j))) with (Z.of_nat (S (S j))) by lia.
        lia. }
      specialize (IH Hq ltac:(lia)). lia.
Qed.

Lemma length_FormatUint_16 u :
  0 <= u < 2 ^ 64 -> (String.length (FormatUint u 16) <= 16)%nat.
Proof.
  intros Hu. unfold FormatUint.
  pose proof (length_formatBits 16 64 u 16 "" ltac:(lia)) as L.
  cbn [String.length] in L. rewrite Nat.add_0_r in L.
  apply L; [|lia]. change (16 ^ Z.of_nat 16) with (2 ^ 64). exact Hu.
Qed.

End Strconv.

(** ** Hex texts and fixed-width identifiers *)
Section Hex.
Import strconv hex trace.

Lemma lowerHexOnly_cons c s :
  lowerHexOnly (String c s) = lowerHexChar c && lowerHexOnly s.
Proof. reflexivity. Qed.

Lemma lowerHexOnly_app s t :
  lowerHexOnly (s +:+ t) = lowerHexOnly s && lowerHexOnly t.
Proof.
  induction s as [|c s IH]; [reflexivity|].
  rewrite append_cons, !lowerHexOnly_cons, IH, andb_assoc. reflexivity.
Qed.

Lemma lowerHexOnly_zeros n : lowerHexOnly (zeros n) = true.
Proof.
  induction n as [|n IH]; [reflexivity|].
  cbn [zeros]. rewrite lowerHexOnly_cons, IH. reflexivity.
Qed.

(** A lower-case hex character is read as a nibble, and the nibble is
    written as the same character. *)
Lemma fromHexChar_lower c :
  lowerHexChar c = true ->
  exists a, fromHexChar (byteOf c) = Some a /\ 0 <= a < 16 /\ hexChar a = c.
Proof.
  destruct c as [[] [] [] [] [] [] [] []]; intros E;
    try (vm_compute in E; discriminate E);
    eexists; (split; [vm_compute; reflexivity|]);
    (split; [lia | vm_compute; reflexivity]).
Qed.

Lemma nibbles a b :
  0 <= a < 16 -> 0 <= b < 16 ->
  Z.shiftr (Z.lor (Z.shiftl a 4) b) 4 = a
  /\ Z.land (Z.lor (Z.shiftl a 4) b) 15 = b.
Proof.
  intros Ha Hb.
  assert (Hx : exists x, a = Z.of_nat x /\ (x < 16)%nat)
    by (exists (Z.to_nat a); lia).
  assert (Hy : exists y, b = Z.of_nat y /\ (y < 16)%nat)
    by (exists (Z.to_nat b); lia).
  destruct Hx as (x & -> & Hx). destruct Hy as (y & -> & Hy).
  do 16 (destruct x as [|x];
         [do 16 (destruct y as [|y]; [split; reflexivity|]); lia|]).
  lia.
Qed.

Lemma digitChar_lowerHex d :
  0 <= d < 16 -> lowerHexChar (digitChar d) = true.
Proof.
  intros Hd.
  assert (Hn : exists n, d = Z.of_nat n /\ (n < 16)%nat)
    by (exists (Z.to_nat d); lia).
  destruct Hn as (n & -> & Hn).
  do 16 (destruct n as [|n]; [vm_compute; reflexivity|]).
  lia.
Qed.

(** Texts two characters at a time. *)
Lemma string_pairs_ind (P : string -> Prop) :
  P "" -> (forall c, P (String c "")) ->
  (forall c d s, P s -> P (String c (String d s))) ->
  forall s, P s.
Proof.
  intros H0 H1 H2.
  assert (H : forall s, P s /\ forall c, P (String c s)).
  { induction s as [|d s [IHs IHc]]; split; auto. }
  intros s. apply H.
Qed.

Lemma DecodeString_cons2 p q s :
  DecodeString (String p (String q s))
  = match fromHexChar (byteOf p), fromHexChar (byteOf q) with
    | Some a, Some b =>
        match DecodeString s with
        | Some rest => Some (Z.lor (Z.shiftl a 4) b :: rest)
        | None => None
        end
    | _, _ => None
    end.
Proof. reflexivity. Qed.

(** Encoding what was decoded from a lower-case text gives the text. *)
Lemma EncodeToString_DecodeString s :
  lowerHexOnly s = true ->
  forall l, DecodeString s = Some l ->
  EncodeToString l = s /\ String.length s = (2 * List.length l)%nat.
Proof.
  induction s as [| c | c d s IH] using string_pairs_ind; intros Hs l Hl.
  - injection Hl as <-. split; reflexivity.
  - discriminate Hl.
  - rewrite !lowerHexOnly_cons in Hs.
    apply andb_true_iff in Hs as [Hc Hs].
    apply andb_true_iff in Hs as [Hd Hs].
    destruct (fromHexChar_lower c Hc) as (a & Ea & Ra & Ca).
    destruct (fromHexChar_lower d Hd) as (b & Eb & Rb & Cb).
    rewrite DecodeString_cons2, Ea, Eb in Hl.
    destruct (DecodeString s) as [rest|]; [|discriminate Hl].
    injection Hl as <-.
    destruct (IH Hs rest eq_refl) as [IHe IHl].
    destruct (nibbles a b Ra Rb) as [Nh Nl].
    cbn [EncodeToString List.length String.length].
    rewrite Nh, Nl, Ca, Cb, IHe, IHl. split; [reflexivity | lia].
Qed.

(** A lower-case hex text of even length is decoded. *)
Lemma DecodeString_total s :
  lowerHexOnly s = true -> Nat.even (String.length s) = true ->
  exists l, DecodeString s = Some l.
Proof.
  induction s as [| c | c d s IH] using string_pairs_ind; intros Hs He.
  - exists []. reflexivity.
  - discriminate He.
  - rewrite !lowerHexOnly_cons in Hs.
    apply andb_true_iff in Hs as [Hc Hs].
    apply andb_true_iff in Hs as [Hd Hs].
    destruct (fromHexChar_lower c Hc) as (a & Ea & _).
    destruct (fromHexChar_lower d Hd) as (b & Eb & _).
    destruct (IH Hs He) as [rest Er].
    rewrite DecodeString_cons2, Ea, Eb, Er. eauto.
Qed.

Lemma copy_same_length (dst src : list Z) :
  List.length src = List.length dst -> copy dst src = src.
Proof.
  intros L. unfold copy. rewrite <- L, firstn_all, skipn_all2 by lia.
  apply app_nil_r.
Qed.

Lemma bytesEqual_eq a b : bytesEqual a b = true -> a = b.
Proof.
  revert b. induction a as [|x a IH]; intros [|y b] E; cbn in E;
    try discriminate E; [reflexivity|].
  apply andb_true_iff in E as [Exy E].
  apply Z.eqb_eq in Exy. rewrite Exy, (IH b E). reflexivity.
Qed.

Lemma EncodeToString_zero n :
  EncodeToString (repeat 0 n) = zeros (2 * n).
Proof.
  induction n as [|n IH]; [reflexivity|].
  replace (2 * S n)%nat with (S (S (2 * n))) by lia.
  cbn [repeat EncodeToString zeros]. rewrite IH. reflexivity.
Qed.

Lemma zeros_snoc n : zeros (S n) = zeros n +:+ "0".
Proof.
  induction n as [|n IH]; [reflexivity|].
  cbn [zeros] in *. rewrite append_cons. f_equal. exact IH.
Qed.

Lemma ParseUint_all_zeros n :
  (0 < n)%nat -> ParseUint (zeros n) 16 64 = (0, None).
Proof.
  intros Hn. destruct n as [|n]; [lia|].
  rewrite zeros_snoc, ParseUint_zeros by (try lia; discriminate).
  reflexivity.
Qed.

(** The digits of a value in base 16 are lower-case hex characters. *)
Lemma formatBits_lowerHex k u a :
  0 <= u < 16 ^ (Z.of_nat k + 1) -> lowerHexOnly a = true ->
  lowerHexOnly (formatBits k u 16 a) = true.
Proof.
  revert u a. induction k as [|k IH]; intros u a Hu Ha; cbn [formatBits].
  - rewrite lowerHexOnly_cons, Ha, digitChar_lowerHex; [reflexivity|].
    change (Z.of_nat 0 + 1) with 1 in Hu. lia.
  - destruct (u >=? 16) eqn:E.
    + apply IH.
      * split; [apply Z.div_pos; lia|].
        apply Z.div_lt_upper_bound; [lia|].
        replace (Z.of_nat (S k) + 1) with (Z.succ (Z.of_nat k + 1)) in Hu by lia.
        rewrite Z.pow_succ_r in Hu by lia. lia.
      * rewrite lowerHexOnly_cons, Ha, digitChar_lowerHex; [reflexivity|].
        apply Z.mod_pos_bound. lia.
    + rewrite lowerHexOnly_cons, Ha, digitChar_lowerHex; [reflexivity|lia].
Qed.

Lemma FormatUint_lowerHex u :
  0 <= u < 2 ^ 64 -> lowerHexOnly (FormatUint u 16) = true.
Proof.
  intros Hu. apply formatBits_lowerHex; [|reflexivity].
  change (16 ^ (Z.of_nat 64 + 1)) with (2 ^ 260). split; [lia|].
  apply Z.lt_le_trans with (2 ^ 64); [lia|].
  apply Z.pow_le_mono_r; lia.
Qed.

(** What [ParseUint] returns without an error is a 64-bit value. *)
Lemma parseLoop_range b c m s n u :
  0 <= n < 2 ^ 64 -> parseLoop b c m s n = (u, None) -> 0 <= u < 2 ^ 64.
Proof.
  revert n. induction s as [|ch s IH]; intros n Hn E; cbn [parseLoop] in E.
  - injection E as <-. exact Hn.
  - destruct (digitVal (byteOf ch)) as [d|]; [|discriminate E].
    destruct (d >=? b); [discriminate E|].
    destruct (n >=? c); [discriminate E|].
    cbv zeta in E.
    destruct ((wrap64 (wrap64 (n * b) + d) <? wrap64 (n * b))
              || (wrap64 (wrap64 (n * b) + d) >? m)); [discriminate E|].
    apply IH in E; [exact E|].
    unfold wrap64. apply Z.mod_pos_bound. lia.
Qed.

Lemma ParseUint_range s b bits u :
  ParseUint s b bits = (u, None) -> 0 <= u < 2 ^ 64.
Proof.
  unfold ParseUint.
  destruct (String.eqb s ""); [discriminate|].
  destruct (negb ((2 <=? b) && (b <=? 36))); [discriminate|].
  cbv zeta. apply parseLoop_range. lia.
Qed.

(** The padded hex text of a non-zero 64-bit value is a well-formed
    identifier of [2 * n] characters, for [n >= 8] bytes. *)
Lemma decodeHex_padded n u :
  (8 <= n)%nat -> 0 < u < 2 ^ 64 ->
  let id := fmt.Sprintf_0s (2 * n) (FormatUint u 16) in
  String.length id = (2 * n)%nat
  /\ exists l, decodeHex id (repeat 0 n) = Some l
       /\ EncodeToString l = id
       /\ bytesEqual l (repeat 0 n) = false.
Proof.
  intros Hn Hu id.
  pose proof (length_FormatUint_16 u ltac:(lia)) as Lh.
  assert (Lid : String.length id = (2 * n)%nat).
  { unfold id, fmt.Sprintf_0s. rewrite length_append, length_zeros. lia. }
  assert (Hlow : lowerHexOnly id = true).
  { unfold id, fmt.Sprintf_0s.
    rewrite lowerHexOnly_app, lowerHexOnly_zeros, FormatUint_lowerHex by lia.
    reflexivity. }
  split; [exact Lid|].
  destruct (DecodeString_total id Hlow) as [l El].
  { rewrite Lid. rewrite Nat.even_mul. reflexivity. }
  destruct (EncodeToString_DecodeString id Hlow l El) as [Eenc Elen].
  exists l. unfold decodeHex. rewrite Hlow, El.
  rewrite copy_same_length by (rewrite repeat_length; lia).
  split; [reflexivity|]. split; [exact Eenc|].
  destruct (bytesEqual l (repeat 0 n)) eqn:Ez; [|reflexivity].
  apply bytesEqual_eq in Ez. subst l.
  rewrite EncodeToString_zero in Eenc.
  assert (P : ParseUint id 16 64 = (u, None)).
  { unfold id, fmt.Sprintf_0s.
    rewrite ParseUint_zeros by (try lia; apply formatBits_nonempty).
    apply ParseUint_FormatUint; lia. }
  rewrite <- Eenc, ParseUint_all_zeros in P by lia.
  injection P as P. lia.
Qed.

Lemma TraceIDFromHex_padded u :
  0 < u < 2 ^ 64 ->
  let id := fmt.Sprintf_0s 32 (FormatUint u 16) in
  String.length id = 32%nat
  /\ exists t, TraceIDFromHex id = (t, None)
       /\ TraceID_String t = id /\ TraceID_IsValid t = true.
Proof.
  intros Hu id.
  destruct (decodeHex_padded 16 u ltac:(lia) Hu) as (L & l & Ed & Ee & Ez).
  change (fmt.Sprintf_0s (2 * 16) (FormatUint u 16)) with id in *.
  change (2 * 16)%nat with 32%nat in L.
  split; [exact L|]. exists l.
  unfold TraceIDFromHex, TraceID_IsValid, nilTraceID, TraceID_String.
  rewrite L, Ed, Ez. cbn [Nat.eqb negb]. repeat split. exact Ee.
Qed.

Lemma SpanIDFromHex_padded u :
  0 < u < 2 ^ 64 ->
  let id := fmt.Sprintf_0s 16 (FormatUint u 16) in
  String.length id = 16%nat
  /\ exists t, SpanIDFromHex id = (t, None)
       /\ SpanID_String t = id /\ SpanID_IsValid t = true.
Proof.
  intros Hu id.
  destruct (decodeHex_padded 8 u ltac:(lia) Hu) as (L & l & Ed & Ee & Ez).
  change (fmt.Sprintf_0s (2 * 8) (FormatUint u 16)) with id in *.
  change (2 * 8)%nat with 16%nat in L.
  split; [exact L|]. exists l.
  unfold SpanIDFromHex, SpanID_IsValid, nilSpanID, SpanID_String.
  rewrite L, Ed, Ez. cbn [Nat.eqb negb]. repeat split. exact Ee.
Qed.

End Hex.

(** ** The identifier codec *)
Section IdentifierCodec.
Import datadog.

Lemma length_hex16 v :
  0 <= v < 2 ^ 64 -> String.length (hex16 v) = 16%nat.
Proof.
  intros Hv. unfold hex16, fmt.Sprintf_0s.
  rewrite length_append, length_zeros.
  pose proof (length_FormatUint_16 v Hv). lia.
Qed.

Lemma ParseUint_hex16 v :
  0 <= v < 2 ^ 64 -> strconv.ParseUint (hex16 v) 16 64 = (v, None).
Proof.
  intros Hv. unfold hex16, fmt.Sprintf_0s.
  rewrite ParseUint_zeros by (try lia; apply formatBits_nonempty).
  apply ParseUint_FormatUint; lia.
Qed.

(** A text of exactly 16 characters is encoded whole. *)
Lemma convertOTtoDD_16 id :
  String.length id = 16%nat ->
  convertOTtoDD id
  = match strconv.ParseUint id 16 64 with
    | (intValue, None) => strconv.FormatUint intValue 10
    | (_, Some _) => ""
    end.
Proof.
  intros L. unfold convertOTtoDD. rewrite L. reflexivity.
Qed.

(** A text longer than 16 characters loses its first 16 characters. *)
Lemma convertOTtoDD_long id :
  (16 < String.length id)%nat ->
  convertOTtoDD id
  = match strconv.ParseUint (sliceFrom 16 id) 16 64 with
    | (intValue, None) => strconv.FormatUint intValue 10
    | (_, Some _) => ""
    end.
Proof.
  intros L. unfold convertOTtoDD.
  destruct (Nat.ltb_spec (String.length id) 16) as [?|_]; [lia|].
  destruct (Nat.ltb_spec 16 (String.length id)) as [_|?]; [|lia].
  reflexivity.
Qed.



End IdentifierCodec.




(** C2, counterexample.  The claim: decoding the empty decimal text
    succeeds with an empty result.  [convertDDtoOT] does not report
    success on the empty text. *)
Lemma C2_empty_decode_is_not_a_success :
  ~ (datadog.convertDDtoOT "" = ("", true)).
Proof.
  vm_compute. discriminate.
Qed.

(** C2, as amended.  Decoding the empty decimal text is a parse failure:
    [convertDDtoOT] returns the empty text with [ok = false], and
    [extract] reports an empty trace-id text as [errMalformedTraceID]
    whatever the other two texts are; the sub-field is not skipped. *)
Theorem C2_empty_decode_fails :
  datadog.convertDDtoOT "" = ("", false)
  /\ forall spanID sampled : string,
       datadog.extract "" spanID sampled
       = (datadog.empty, Some datadog.errMalformedTraceID).
Proof.
  split; [vm_compute; reflexivity|].
  intros spanID sampled. reflexivity.
Qed.

(** C4.  Round trip of the identifier codec: for every 64-bit value [v],
    its 16-character hex text [hex16 v] is encoded by [convertOTtoDD] to
    the decimal text of [v], which [convertDDtoOT] decodes with success
    to a hex text that parses back to [v]. *)
Theorem C4_codec_round_trip (v : Z) :
  0 <= v < 2 ^ 64 ->
  String.length (hex16 v) = 16%nat
  /\ strconv.ParseUint (hex16 v) 16 64 = (v, None)
  /\ datadog.convertOTtoDD (hex16 v) = strconv.FormatUint v 10
  /\ exists h : string,
       datadog.convertDDtoOT (datadog.convertOTtoDD (hex16 v)) = (h, true)
       /\ strconv.ParseUint h 16 64 = (v, None).
Proof.
  intros Hv.
  assert (E : datadog.convertOTtoDD (hex16 v) = strconv.FormatUint v 10).
  { rewrite convertOTtoDD_16 by (apply length_hex16; exact Hv).
    rewrite ParseUint_hex16 by exact Hv. reflexivity. }
  split; [apply length_hex16; exact Hv|].
  split; [apply ParseUint_hex16; exact Hv|].
  split; [exact E|].
  exists (strconv.FormatUint v 16). rewrite E. unfold datadog.convertDDtoOT.
  rewrite ParseUint_FormatUint by lia.
  split; [reflexivity|]. apply ParseUint_FormatUint; lia.
Qed.

Lemma C4_codec_round_trip_witness :
  0 <= 16701352862047361693 < 2 ^ 64
  /\ hex16 16701352862047361693 = "e7c71ff0c2c95a9d"
  /\ exists h : string,
       datadog.convertDDtoOT
         (datadog.convertOTtoDD (hex16 16701352862047361693)) = (h, true)
       /\ strconv.ParseUint h 16 64 = (16701352862047361693, None).
Proof.
  split; [lia|]. split; [vm_compute; reflexivity|].
  apply (C4_codec_round_trip 16701352862047361693). lia.
Defined.

(** ** The extractor *)
Section Extractor.
Import datadog.

(** [extract] is its three steps in order, the first error winning. *)
Lemma extract_steps traceID spanID sampled :
  extract traceID spanID sampled
  = match traceIDStep traceID with
    | inr e => (empty, Some e)
    | inl t =>
        match spanIDStep spanID with
        | inr e => (empty, Some e)
        | inl s =>
            match strconv.Atoi sampled with
            | (_, Some _) => (empty, Some errInvalidSamplingPriorityHeader)
            | (sampledInt, None) =>
                (trace.NewSpanContext
                   {| trace.cfgTraceID := t;
                      trace.cfgSpanID := s;
                      trace.cfgTraceFlags :=
                        if sampledInt >=? 1 then trace.FlagsSampled else 0;
                      trace.cfgRemote := false |},
                 None)
            end
        end
    end.
Proof.
  unfold extract, traceIDStep, spanIDStep.
  destruct (convertDDtoOT traceID) as [h [|]]; [|reflexivity].
  destruct (negb (String.eqb h ""));
    [destruct (trace.TraceIDFromHex _) as [t [e|]]; [reflexivity|] |];
    (destruct (convertDDtoOT spanID) as [g [|]]; [|reflexivity];
     destruct (negb (String.eqb g ""));
     [destruct (trace.SpanIDFromHex _) as [s [e|]]; [reflexivity|] |];
     destruct (strconv.Atoi sampled) as [n [e|]]; reflexivity).
Qed.

Lemma convertDDtoOT_ok id u :
  strconv.ParseUint id 10 64 = (u, None) ->
  convertDDtoOT id = (strconv.FormatUint u 16, true).
Proof. intros E. unfold convertDDtoOT. rewrite E. reflexivity. Qed.

Lemma convertDDtoOT_fail id u e :
  strconv.ParseUint id 10 64 = (u, Some e) ->
  convertDDtoOT id = ("", false).
Proof. intros E. unfold convertDDtoOT. rewrite E. reflexivity. Qed.

(** Padding is what both branches of the length test amount to. *)
Lemma padded_or_whole w h :
  (if (String.length h <? w)%nat then fmt.Sprintf_0s w h else h)
  = fmt.Sprintf_0s w h.
Proof.
  destruct (Nat.ltb_spec (String.length h) w) as [?|Hge]; [reflexivity|].
  unfold fmt.Sprintf_0s.
  replace (w - String.length h)%nat with 0%nat by lia. reflexivity.
Qed.

(** The first step on a text that parses: the padded hex text decides. *)
Lemma traceIDStep_parsed traceID u :
  strconv.ParseUint traceID 10 64 = (u, None) ->
  traceIDStep traceID
  = match trace.TraceIDFromHex (fmt.Sprintf_0s 32 (strconv.FormatUint u 16)) with
    | (t, None) => inl t
    | (_, Some _) => inr errInvalidTraceIDHeader
    end.
Proof.
  intros E. unfold traceIDStep. rewrite (convertDDtoOT_ok _ _ E).
  destruct (String.eqb_spec (strconv.FormatUint u 16) "") as [Z|_];
    [now apply formatBits_nonempty in Z|].
  cbn [negb]. rewrite padded_or_whole. reflexivity.
Qed.

Lemma spanIDStep_parsed spanID u :
  strconv.ParseUint spanID 10 64 = (u, None) ->
  spanIDStep spanID
  = match trace.SpanIDFromHex (fmt.Sprintf_0s 16 (strconv.FormatUint u 16)) with
    | (t, None) => inl t
    | (_, Some _) => inr errInvalidSpanIDHeader
    end.
Proof.
  intros E. unfold spanIDStep. rewrite (convertDDtoOT_ok _ _ E).
  destruct (String.eqb_spec (strconv.FormatUint u 16) "") as [Z|_];
    [now apply formatBits_nonempty in Z|].
  cbn [negb]. rewrite padded_or_whole. reflexivity.
Qed.

(** The first step succeeds exactly on the decimal texts of non-zero
    64-bit values, with the padded hex text as the identifier. *)
Lemma traceIDStep_nonzero traceID u :
  strconv.ParseUint traceID 10 64 = (u, None) -> u <> 0 ->
  exists t, traceIDStep traceID = inl t
    /\ trace.TraceID_String t = fmt.Sprintf_0s 32 (strconv.FormatUint u 16)
    /\ trace.TraceID_IsValid t = true.
Proof.
  intros E Hu. pose proof (ParseUint_range _ _ _ _ E) as R.
  destruct (TraceIDFromHex_padded u ltac:(lia)) as (_ & t & Et & Es & Ev).
  exists t. rewrite (traceIDStep_parsed _ _ E), Et. auto.
Qed.

Lemma spanIDStep_nonzero spanID u :
  strconv.ParseUint spanID 10 64 = (u, None) -> u <> 0 ->
  exists s, spanIDStep spanID = inl s
    /\ trace.SpanID_String s = fmt.Sprintf_0s 16 (strconv.FormatUint u 16)
    /\ trace.SpanID_IsValid s = true.
Proof.
  intros E Hu. pose proof (ParseUint_range _ _ _ _ E) as R.
  destruct (SpanIDFromHex_padded u ltac:(lia)) as (_ & s & Et & Es & Ev).
  exists s. rewrite (spanIDStep_parsed _ _ E), Et. auto.
Qed.

Lemma traceIDStep_zero traceID :
  strconv.ParseUint traceID 10 64 = (0, None) ->
  traceIDStep traceID = inr errInvalidTraceIDHeader.
Proof. intros E. rewrite (traceIDStep_parsed _ _ E). reflexivity. Qed.

Lemma spanIDStep_zero spanID :
  strconv.ParseUint spanID 10 64 = (0, None) ->
  spanIDStep spanID = inr errInvalidSpanIDHeader.
Proof. intros E. rewrite (spanIDStep_parsed _ _ E). reflexivity. Qed.

Lemma traceIDStep_ok_inv traceID t :
  traceIDStep traceID = inl t ->
  exists u, strconv.ParseUint traceID 10 64 = (u, None) /\ u <> 0
    /\ trace.TraceID_String t = fmt.Sprintf_0s 32 (strconv.FormatUint u 16)
    /\ trace.TraceID_IsValid t = true.
Proof.
  intros E. destruct (strconv.ParseUint traceID 10 64) as [u [e|]] eqn:P.
  - unfold traceIDStep in E. rewrite (convertDDtoOT_fail _ _ _ P) in E.
    discriminate E.
  - exists u. split; [reflexivity|].
    destruct (Z.eq_dec u 0) as [->|Hu].
    + rewrite (traceIDStep_zero _ P) in E. discriminate E.
    + destruct (traceIDStep_nonzero _ _ P Hu) as (t' & Et & Es & Ev).
      rewrite E in Et. injection Et as <-. auto.
Qed.

Lemma spanIDStep_ok_inv spanID s :
  spanIDStep spanID = inl s ->
  exists u, strconv.ParseUint spanID 10 64 = (u, None) /\ u <> 0
    /\ trace.SpanID_String s = fmt.Sprintf_0s 16 (strconv.FormatUint u 16)
    /\ trace.SpanID_IsValid s = true.
Proof.
  intros E. destruct (strconv.ParseUint spanID 10 64) as [u [e|]] eqn:P.
  - unfold spanIDStep in E. rewrite (convertDDtoOT_fail _ _ _ P) in E.
    discriminate E.
  - exists u. split; [reflexivity|].
    destruct (Z.eq_dec u 0) as [->|Hu].
    + rewrite (spanIDStep_zero _ P) in E. discriminate E.
    + destruct (spanIDStep_nonzero _ _ P Hu) as (s' & Et & Es & Ev).
      rewrite E in Et. injection Et as <-. auto.
Qed.

(** A span context extracted without an error is valid. *)
Lemma extract_ok_valid traceID spanID sampled sc :
  extract traceID spanID sampled = (sc, None) -> trace.IsValid sc = true.
Proof.
  rewrite extract_steps.
  destruct (traceIDStep traceID) as [t|e] eqn:Et; [|discriminate].
  destruct (spanIDStep spanID) as [s|e] eqn:Es; [|discriminate].
  destruct (strconv.Atoi sampled) as [n [e|]]; [discriminate|].
  intros E. injection E as <-.
  destruct (traceIDStep_ok_inv _ _ Et) as (_ & _ & _ & _ & Vt).
  destruct (spanIDStep_ok_inv _ _ Es) as (_ & _ & _ & _ & Vs).
  unfold trace.IsValid. cbn. rewrite Vt, Vs. reflexivity.
Qed.

End Extractor.

(** C3.  The sampling step of [extract] always runs.  For every pair of
    trace-id and span-id texts that pass the first two steps (they
    decode to the identifiers [t] and [s]): an empty sampling text gives
    the zero span context and [errInvalidSamplingPriorityHeader]; so
    does every sampling text that [Atoi] rejects; a parsed value of at
    least 1 sets the sampled flag, and a parsed value of at most 0
    leaves it unset. *)
Theorem C3_sampling_step_always_runs
    (traceID spanID : string) (t : trace.TraceID) (s : trace.SpanID) :
  traceIDStep traceID = inl t ->
  spanIDStep spanID = inl s ->
  datadog.extract traceID spanID ""
  = (datadog.empty, Some datadog.errInvalidSamplingPriorityHeader)
  /\ (forall sampled n e,
        strconv.Atoi sampled = (n, Some e) ->
        datadog.extract traceID spanID sampled
        = (datadog.empty, Some datadog.errInvalidSamplingPriorityHeader))
  /\ (forall sampled n,
        strconv.Atoi sampled = (n, None) -> 1 <= n ->
        exists sc, datadog.extract traceID spanID sampled = (sc, None)
          /\ trace.traceID sc = t /\ trace.spanID sc = s
          /\ trace.traceFlags sc = trace.FlagsSampled
          /\ trace.IsSampled sc = true)
  /\ (forall sampled n,
        strconv.Atoi sampled = (n, None) -> n <= 0 ->
        exists sc, datadog.extract traceID spanID sampled = (sc, None)
          /\ trace.traceID sc = t /\ trace.spanID sc = s
          /\ trace.traceFlags sc = 0
          /\ trace.IsSampled sc = false).
Proof.
  intros Et Es. repeat split.
  - rewrite extract_steps, Et, Es. reflexivity.
  - intros sampled n e Ea. rewrite extract_steps, Et, Es, Ea. reflexivity.
  - intros sampled n Ea Hn. rewrite extract_steps, Et, Es, Ea.
    destruct (Z.geb_spec n 1) as [_|?]; [|lia].
    eexists. split; [reflexivity|]. repeat split.
  - intros sampled n Ea Hn. rewrite extract_steps, Et, Es, Ea.
    destruct (Z.geb_spec n 1) as [?|_]; [lia|].
    eexists. split; [reflexivity|]. repeat split.
Qed.

Lemma C3_sampling_step_always_runs_witness :
  datadog.extract "8778793551513751462" "6023947403358210776" ""
  = (datadog.empty, Some datadog.errInvalidSamplingPriorityHeader)
  /\ datadog.extract "8778793551513751462" "6023947403358210776" "yes"
     = (datadog.empty, Some datadog.errInvalidSamplingPriorityHeader)
  /\ (exists sc,
        datadog.extract "8778793551513751462" "6023947403358210776" "2" = (sc, None)
        /\ trace.IsSampled sc = true)
  /\ (exists sc,
        datadog.extract "8778793551513751462" "6023947403358210776" "-1" = (sc, None)
        /\ trace.IsSampled sc = false).
Proof.
  pose proof
    (C3_sampling_step_always_runs
       "8778793551513751462" "6023947403358210776"
       [0; 0; 0; 0; 0; 0; 0; 0; 121; 212; 138; 57; 26; 119; 143; 166]
       [83; 153; 92; 63; 66; 205; 138; 216]
       ltac:(vm_compute; reflexivity) ltac:(vm_compute; reflexivity))
    as (H0 & He & H1 & H2).
  split; [exact H0|].
  split; [apply (He "yes" 0 strconv.ErrSyntax); vm_compute; reflexivity|].
  split.
  - destruct (H1 "2" 2 ltac:(vm_compute; reflexivity) ltac:(lia))
      as (sc & E & _ & _ & _ & S).
    exists sc. split; assumption.
  - destruct (H2 "-1" (-1) ltac:(vm_compute; reflexivity) ltac:(lia))
      as (sc & E & _ & _ & _ & S).
    exists sc. split; assumption.
Defined.

(** C5, counterexample.  The claim's example: the decimal text
    [123456789] decodes to the hex text [075bcd15] and gives the trace
    identifier [00000000000000000000000000075bcd15].  The decoded text
    has no leading zero, and the identifier extracted reads as 32
    characters, not as the 34 of the claim. *)
Lemma C5_example_texts_differ :
  fst (datadog.convertDDtoOT "123456789") <> "075bcd15"
  /\ trace.TraceID_String
       (trace.traceID (fst (datadog.extract "123456789" "987654321" "1")))
     <> "00000000000000000000000000075bcd15".
Proof.
  split; vm_compute; discriminate.
Qed.

(** C5, as amended.  For every decimal text that parses as a 64-bit
    value [u] whose hex text is shorter than the target width, [extract]
    builds the identifier from that hex text padded on the left with
    zeros to exactly 32 characters (trace identifier) or 16 characters
    (span identifier): the step is decided by the padded text, and for
    [u] other than 0 it yields the identifier that reads as the padded
    text.  The decimal text [123456789] decodes to the hex text
    [75bcd15] and gives the trace identifier
    [000000000000000000000000075bcd15]. *)
Theorem C5_extract_pads_to_width :
  (forall traceID u,
     strconv.ParseUint traceID 10 64 = (u, None) ->
     (String.length (strconv.FormatUint u 16) < 32)%nat ->
     let h := strconv.FormatUint u 16 in
     let id := zeros (32 - String.length h) +:+ h in
     String.length id = 32%nat
     /\ traceIDStep traceID
        = match trace.TraceIDFromHex id with
          | (t, None) => inl t
          | (_, Some _) => inr datadog.errInvalidTraceIDHeader
          end
     /\ (u <> 0 ->
         exists t, traceIDStep traceID = inl t
           /\ trace.TraceID_String t = id
           /\ forall spanID sampled sc,
                datadog.extract traceID spanID sampled = (sc, None) ->
                trace.traceID sc = t))
  /\ (forall spanID u,
        strconv.ParseUint spanID 10 64 = (u, None) ->
        (String.length (strconv.FormatUint u 16) < 16)%nat ->
        let h := strconv.FormatUint u 16 in
        let id := zeros (16 - String.length h) +:+ h in
        String.length id = 16%nat
        /\ spanIDStep spanID
           = match trace.SpanIDFromHex id with
             | (s, None) => inl s
             | (_, Some _) => inr datadog.errInvalidSpanIDHeader
             end
        /\ (u <> 0 ->
            exists s, spanIDStep spanID = inl s
              /\ trace.SpanID_String s = id
              /\ forall traceID sampled sc,
                   datadog.extract traceID spanID sampled = (sc, None) ->
                   trace.spanID sc = s))
  /\ datadog.convertDDtoOT "123456789" = ("75bcd15", true)
  /\ exists sc,
       datadog.extract "123456789" "987654321" "1" = (sc, None)
       /\ trace.TraceID_String (trace.traceID sc)
          = "000000000000000000000000075bcd15"
       /\ trace.SpanID_String (trace.spanID sc) = "000000003ade68b1".
Proof.
  split; [|split; [|split]].
  - intros traceID u P L h id.
    change id with (fmt.Sprintf_0s 32 h).
    split; [|split].
    + unfold fmt.Sprintf_0s. rewrite length_append, length_zeros.
      fold h in L. lia.
    + apply traceIDStep_parsed. exact P.
    + intros Hu.
      destruct (traceIDStep_nonzero _ _ P Hu) as (t & Et & Es & _).
      exists t. split; [exact Et|]. split; [exact Es|].
      intros spanID sampled sc E. rewrite extract_steps, Et in E.
      destruct (spanIDStep spanID); [|discriminate E].
      destruct (strconv.Atoi sampled) as [n [e|]]; [discriminate E|].
      injection E as <-. reflexivity.
  - intros spanID u P L h id.
    change id with (fmt.Sprintf_0s 16 h).
    split; [|split].
    + unfold fmt.Sprintf_0s. rewrite length_append, length_zeros.
      fold h in L. lia.
    + apply spanIDStep_parsed. exact P.
    + intros Hu.
      destruct (spanIDStep_nonzero _ _ P Hu) as (s & Et & Es & _).
      exists s. split; [exact Et|]. split; [exact Es|].
      intros traceID sampled sc E. rewrite extract_steps, Et in E.
      destruct (traceIDStep traceID); [|discriminate E].
      destruct (strconv.Atoi sampled) as [n [e|]]; [discriminate E|].
      injection E as <-. reflexivity.
  - vm_compute. reflexivity.
  - eexists. split; [vm_compute; reflexivity|].
    split; vm_compute; reflexivity.
Qed.

Lemma C5_extract_pads_to_width_witness :
  strconv.ParseUint "123456789" 10 64 = (123456789, None)
  /\ (String.length (strconv.FormatUint 123456789 16) < 32)%nat
  /\ (exists t, traceIDStep "123456789" = inl t
       /\ trace.TraceID_String t
          = zeros (32 - String.length (strconv.FormatUint 123456789 16))
            +:+ strconv.FormatUint 123456789 16)
  /\ strconv.ParseUint "987654321" 10 64 = (987654321, None)
  /\ (String.length (strconv.FormatUint 987654321 16) < 16)%nat
  /\ exists s, spanIDStep "987654321" = inl s
       /\ trace.SpanID_String s
          = zeros (16 - String.length (strconv.FormatUint 987654321 16))
            +:+ strconv.FormatUint 987654321 16.
Proof.
  split; [vm_compute; reflexivity|].
  split; [vm_compute; lia|].
  destruct C5_extract_pads_to_width as (HT & HS & _).
  destruct (HT "123456789" 123456789
              ltac:(vm_compute; reflexivity) ltac:(vm_compute; lia))
    as (_ & _ & Hnz).
  destruct (Hnz ltac:(lia)) as (t & Et & Es & _).
  split; [exists t; split; [exact Et | exact Es]|].
  split; [vm_compute; reflexivity|].
  split; [vm_compute; lia|].
  destruct (HS "987654321" 987654321
              ltac:(vm_compute; reflexivity) ltac:(vm_compute; lia))
    as (_ & _ & Hnz').
  destruct (Hnz' ltac:(lia)) as (s & Et' & Es' & _).
  exists s. split; [exact Et' | exact Es'].
Defined.

(** C6.  Extraction is ordered and the first failure wins.  With an
    empty trace-id text [extract] returns the zero span context and
    [errMalformedTraceID] whatever the span-id and sampling texts are;
    with a trace-id text that passes the first step and an empty span-id
    text it returns the zero span context and [errMalformedSpanID]. *)
Theorem C6_first_failure_wins :
  (forall spanID sampled,
     datadog.extract "" spanID sampled
     = (datadog.empty, Some datadog.errMalformedTraceID))
  /\ (forall traceID t sampled,
        traceIDStep traceID = inl t ->
        datadog.extract traceID "" sampled
        = (datadog.empty, Some datadog.errMalformedSpanID)).
Proof.
  split.
  - intros spanID sampled. reflexivity.
  - intros traceID t sampled Et. rewrite extract_steps, Et. reflexivity.
Qed.

Lemma C6_first_failure_wins_witness :
  datadog.extract "" "6023947403358210776" ""
  = (datadog.empty, Some datadog.errMalformedTraceID)
  /\ datadog.extract "8778793551513751462" "" ""
     = (datadog.empty, Some datadog.errMalformedSpanID).
Proof.
  destruct C6_first_failure_wins as [HT HS].
  split; [apply HT|].
  apply (HS "8778793551513751462"
            [0; 0; 0; 0; 0; 0; 0; 0; 121; 212; 138; 57; 26; 119; 143; 166]).
  vm_compute. reflexivity.
Defined.

(** C7.  A text that parses as an unsigned 64-bit decimal integer but
    whose zero-padded fixed-width hex text is not a well-formed
    identifier makes [extract] return the zero span context with
    [errInvalidTraceIDHeader] when it is the trace-id text, and with
    [errInvalidSpanIDHeader] when it is the span-id text (the trace-id
    text having passed the first step). *)
Theorem C7_invalid_identifier_header :
  (forall traceID u spanID sampled,
     strconv.ParseUint traceID 10 64 = (u, None) ->
     snd (trace.TraceIDFromHex (fmt.Sprintf_0s 32 (strconv.FormatUint u 16)))
     <> None ->
     datadog.extract traceID spanID sampled
     = (datadog.empty, Some datadog.errInvalidTraceIDHeader))
  /\ (forall traceID t spanID u sampled,
        traceIDStep traceID = inl t ->
        strconv.ParseUint spanID 10 64 = (u, None) ->
        snd (trace.SpanIDFromHex (fmt.Sprintf_0s 16 (strconv.FormatUint u 16)))
        <> None ->
        datadog.extract traceID spanID sampled
        = (datadog.empty, Some datadog.errInvalidSpanIDHeader)).
Proof.
  split.
  - intros traceID u spanID sampled P Hbad.
    rewrite extract_steps, (traceIDStep_parsed _ _ P).
    destruct (trace.TraceIDFromHex _) as [t [e|]]; [reflexivity|].
    now contradiction Hbad.
  - intros traceID t spanID u sampled Et P Hbad.
    rewrite extract_steps, Et, (spanIDStep_parsed _ _ P).
    destruct (trace.SpanIDFromHex _) as [s [e|]]; [reflexivity|].
    now contradiction Hbad.
Qed.

Lemma C7_invalid_identifier_header_witness :
  datadog.extract "0000000000000000000" "6023947403358210776" ""
  = (datadog.empty, Some datadog.errInvalidTraceIDHeader)
  /\ datadog.extract "8778793551513751462" "0000000000000000000" ""
     = (datadog.empty, Some datadog.errInvalidSpanIDHeader).
Proof.
  destruct C7_invalid_identifier_header as [HT HS].
  split.
  - apply (HT "0000000000000000000" 0);
      [vm_compute; reflexivity | vm_compute; discriminate].
  - apply (HS "8778793551513751462"
              [0; 0; 0; 0; 0; 0; 0; 0; 121; 212; 138; 57; 26; 119; 143; 166]
              "0000000000000000000" 0);
      [vm_compute; reflexivity | vm_compute; reflexivity
       | vm_compute; discriminate].
Defined.

(** ** The injector and the public operations *)

(** C8.  For every span context whose trace identifier or span
    identifier is invalid (the zero identifier), [Inject] leaves the
    carrier as it was: none of the three fields is written. *)
Theorem C8_inject_invalid_writes_nothing
    {C : Type} `{TextMapCarrier C} {Ctx : Type} `{AmbientContext Ctx}
    (ctx : Ctx) (carrier : C) :
  trace.TraceID_IsValid (trace.traceID (SpanContextFromContext ctx)) = false
  \/ trace.SpanID_IsValid (trace.spanID (SpanContextFromContext ctx)) = false ->
  datadog.Inject ctx carrier = carrier.
Proof.
  intros Hinv. unfold datadog.Inject.
  destruct Hinv as [E|E]; rewrite E; cbn [negb orb].
  - reflexivity.
  - rewrite orb_true_r. reflexivity.
Qed.

Lemma C8_inject_invalid_writes_nothing_witness :
  let sc :=
    {| trace.traceID := trace.nilTraceID;
       trace.spanID := [83; 153; 92; 63; 66; 205; 138; 216];
       trace.traceFlags := 1;
       trace.remote := false |} in
  let carrier : gmap string string := {[ "traceparent" := "00-ab-cd-01" ]} in
  datadog.Inject (WithSpan Background sc) carrier = carrier
  /\ datadog.Inject Background carrier = carrier.
Proof.
  intros sc carrier. split.
  - apply (C8_inject_invalid_writes_nothing (WithSpan Background sc) carrier).
    left. reflexivity.
  - apply (C8_inject_invalid_writes_nothing Background carrier).
    right. reflexivity.
Defined.

(** C9.  [Extract] returns the context it was given whenever [extract]
    returns an error or a span context that is not valid, and the
    context with the new remote span context attached when [extract]
    succeeds with a valid one.  Its result is a context only: no error
    reaches the caller. *)
Theorem C9_Extract_falls_back
    {C : Type} `{TextMapCarrier C} {Ctx : Type} `{AmbientContext Ctx}
    (ctx : Ctx) (carrier : C) :
  let r :=
    datadog.extract (Get carrier datadog.traceIDHeaderKey)
      (Get carrier datadog.parentIDHeaderKey)
      (Get carrier datadog.priorityHeaderKey) in
  (snd r <> None \/ trace.IsValid (fst r) = false ->
   datadog.Extract ctx carrier = ctx)
  /\ (snd r = None -> trace.IsValid (fst r) = true ->
      datadog.Extract ctx carrier = ContextWithRemoteSpanContext ctx (fst r)).
Proof.
  intros r. unfold datadog.Extract. fold r.
  destruct r as [sc [e|]]; cbn [fst snd negb orb]; split.
  - reflexivity.
  - discriminate.
  - intros [E|E]; [now contradiction E|]. rewrite E. reflexivity.
  - intros _ E. rewrite E. reflexivity.
Qed.

Lemma C9_Extract_falls_back_witness :
  let parent := WithValue Background "request-id" "42" in
  let bad : gmap string string :=
    {[ datadog.traceIDHeaderKey := "not a number" ]} in
  let good : gmap string string :=
    <[ datadog.traceIDHeaderKey := "8778793551513751462" ]>
      (<[ datadog.parentIDHeaderKey := "6023947403358210776" ]>
         {[ datadog.priorityHeaderKey := "1" ]}) in
  datadog.Extract parent bad = parent
  /\ datadog.Extract parent good
     = WithSpan parent
         {| trace.traceID :=
              [0; 0; 0; 0; 0; 0; 0; 0; 121; 212; 138; 57; 26; 119; 143; 166];
            trace.spanID := [83; 153; 92; 63; 66; 205; 138; 216];
            trace.traceFlags := 1;
            trace.remote := true |}.
Proof.
  intros parent bad good. split.
  - apply (C9_Extract_falls_back parent bad).
    left. vm_compute. discriminate.
  - rewrite (proj2 (C9_Extract_falls_back parent good));
      vm_compute; reflexivity.
Defined.

(** C10.  There is a valid span context, with a trace identifier whose
    high 64 bits are not zero and whose low 64 bits are zero and with a
    valid span identifier, for which [Inject] writes the three headers
    with the trace-id header [0]; [extract] on the headers written
    fails with [errInvalidTraceIDHeader], and [Extract] gives back the
    context it was given. *)
Theorem C10_inject_then_extract_loses_context :
  exists sc : trace.SpanContext,
    trace.IsValid sc = true
    /\ firstn 8 (trace.traceID sc) <> repeat 0 8
    /\ skipn 8 (trace.traceID sc) = repeat 0 8
    /\ List.length (trace.traceID sc) = 16%nat
    /\ trace.SpanID_IsValid (trace.spanID sc) = true
    /\ let carrier : gmap string string :=
         datadog.Inject (WithSpan Background sc) ∅ in
       carrier !! datadog.traceIDHeaderKey = Some "0"
       /\ carrier !! datadog.parentIDHeaderKey = Some "6023947403358210776"
       /\ carrier !! datadog.priorityHeaderKey = Some "1"
       /\ datadog.extract (Get carrier datadog.traceIDHeaderKey)
            (Get carrier datadog.parentIDHeaderKey)
            (Get carrier datadog.priorityHeaderKey)
          = (datadog.empty, Some datadog.errInvalidTraceIDHeader)
       /\ datadog.Extract Background carrier = Background.
Proof.
  exists {| trace.traceID := [0; 0; 0; 0; 0; 0; 0; 1; 0; 0; 0; 0; 0; 0; 0; 0];
            trace.spanID := [83; 153; 92; 63; 66; 205; 138; 216];
            trace.traceFlags := 1;
            trace.remote := false |}.
  split; [reflexivity|].
  split; [cbn; discriminate|].
  split; [reflexivity|].
  split; [reflexivity|].
  split; [reflexivity|].
  cbv zeta. repeat split; vm_compute; reflexivity.
Qed.


(** ** Identifiers as numbers *)
Section Bytes.
Import strconv hex trace.

Lemma hexChar_digitChar d : 0 <= d < 16 -> hexChar d = digitChar d.
Proof.
  intros Hd.
  assert (Hn : exists n, d = Z.of_nat n /\ (n < 16)%nat)
    by (exists (Z.to_nat d); lia).
  destruct Hn as (n & -> & Hn).
  do 16 (destruct n as [|n]; [reflexivity|]).
  lia.
Qed.

Lemma isByte_range v : isByte v = true <-> 0 <= v < 256.
Proof. unfold isByte. rewrite andb_true_iff, Z.leb_le, Z.ltb_lt. tauto. Qed.

Lemma bytesOK_cons v l : bytesOK (v :: l) = isByte v && bytesOK l.
Proof. reflexivity. Qed.

(** The two nibbles of a byte. *)
Lemma byte_nibbles v :
  0 <= v < 256 ->
  0 <= Z.shiftr v 4 < 16 /\ 0 <= Z.land v 15 < 16
  /\ Z.shiftr v 4 * 16 + Z.land v 15 = v.
Proof.
  intros Hv. rewrite Z.shiftr_div_pow2 by lia.
  change 15 with (Z.ones 4). rewrite Z.land_ones by lia.
  change (2 ^ 4) with 16.
  pose proof (Z.div_mod v 16 ltac:(lia)).
  pose proof (Z.mod_pos_bound v 16 ltac:(lia)).
  assert (0 <= v / 16) by (apply Z.div_pos; lia).
  assert (v / 16 < 16) by (apply Z.div_lt_upper_bound; lia).
  lia.
Qed.

Lemma beValue_range l :
  bytesOK l = true -> 0 <= beValue l < 256 ^ Z.of_nat (List.length l).
Proof.
  induction l as [|v l IH]; intros Hl.
  - cbn. lia.
  - rewrite bytesOK_cons in Hl. apply andb_true_iff in Hl as [Hv Hl].
    apply isByte_range in Hv. specialize (IH Hl).
    cbn [beValue List.length].
    replace (Z.of_nat (S (List.length l))) with (Z.succ (Z.of_nat (List.length l)))
      by lia.
    rewrite Z.pow_succ_r by lia. nia.
Qed.

Lemma length_EncodeToString l :
  String.length (EncodeToString l) = (2 * List.length l)%nat.
Proof.
  induction l as [|v l IH]; [reflexivity|].
  cbn [EncodeToString String.length List.length]. rewrite IH. lia.
Qed.

Lemma EncodeToString_app l l' :
  EncodeToString (l ++ l') = EncodeToString l +:+ EncodeToString l'.
Proof.
  induction l as [|v l IH]; [reflexivity|].
  cbn [app EncodeToString]. rewrite IH, !append_cons. reflexivity.
Qed.

(** Dropping [2 * k] characters of the text drops [k] bytes. *)
Lemma sliceFrom_EncodeToString k l :
  sliceFrom (2 * k) (EncodeToString l) = EncodeToString (skipn k l).
Proof.
  revert l. induction k as [|k IH]; intros l; [reflexivity|].
  replace (2 * S k)%nat with (S (S (2 * k))) by lia.
  destruct l as [|v l]; [reflexivity|].
  cbn [EncodeToString sliceFrom skipn]. apply IH.
Qed.

(** The parsing loop reads the hex text of a byte array as its value. *)
Lemma parseLoop_EncodeToString l s n :
  bytesOK l = true -> 0 <= n ->
  n * 256 ^ Z.of_nat (List.length l) + beValue l <= maxUint64 ->
  parseLoop 16 (maxUint64 / 16 + 1) maxUint64 (EncodeToString l +:+ s) n
  = parseLoop 16 (maxUint64 / 16 + 1) maxUint64 s
      (n * 256 ^ Z.of_nat (List.length l) + beValue l).
Proof.
  revert n. induction l as [|v l IH]; intros n Hl Hn Hfit.
  - cbn [EncodeToString List.length beValue]. rewrite append_nil_l.
    f_equal. change (Z.of_nat 0) with 0. lia.
  - rewrite bytesOK_cons in Hl. apply andb_true_iff in Hl as [Hv Hl].
    apply isByte_range in Hv.
    destruct (byte_nibbles v Hv) as (Hhi & Hlo & Hsum).
    pose proof (beValue_range l Hl) as Hr.
    cbn [beValue List.length] in Hfit |- *.
    replace (Z.of_nat (S (List.length l))) with (Z.succ (Z.of_nat (List.length l)))
      in Hfit |- * by lia.
    rewrite Z.pow_succ_r in Hfit |- * by lia.
    set (P := 256 ^ Z.of_nat (List.length l)) in *.
    assert (HP : 1 <= P).
    { pose proof (Z.pow_pos_nonneg 256 (Z.of_nat (List.length l))
                    ltac:(lia) ltac:(lia)).
      unfold P. lia. }
    cbn [EncodeToString]. rewrite !append_cons.
    rewrite !hexChar_digitChar by lia.
    assert (Hnv : n * 256 + v <= maxUint64) by nia.
    rewrite parseLoop_digit by lia.
    rewrite parseLoop_digit by lia.
    replace ((n * 16 + Z.shiftr v 4) * 16 + Z.land v 15) with (n * 256 + v) by lia.
    rewrite IH by (try assumption; nia).
    f_equal. fold P. lia.
Qed.

(** [ParseUint] reads the hex text of at most 8 bytes as their value. *)
Lemma ParseUint_EncodeToString l :
  bytesOK l = true -> (1 <= List.length l <= 8)%nat ->
  ParseUint (EncodeToString l) 16 64 = (beValue l, None).
Proof.
  intros Hl Hlen. unfold ParseUint.
  destruct (String.eqb_spec (EncodeToString l) "") as [E|_].
  { apply (f_equal String.length) in E.
    rewrite length_EncodeToString in E. cbn in E. lia. }
  cbn [negb andb Z.leb]. change (64 =? 0) with false. cbv iota zeta.
  change (wrap64 (wrap64 (Z.shiftl 1 64) - 1)) with maxUint64.
  pose proof (beValue_range l Hl) as Hr.
  assert (Hpow : 256 ^ Z.of_nat (List.length l) <= 256 ^ 8)
    by (apply Z.pow_le_mono_r; lia).
  rewrite <- (append_nil_r (EncodeToString l)).
  rewrite parseLoop_EncodeToString
    by (try assumption; try lia; unfold maxUint64; lia).
  reflexivity.
Qed.

(** Byte arrays of one length with one value are equal. *)
Lemma beValue_inj l l' :
  List.length l = List.length l' ->
  bytesOK l = true -> bytesOK l' = true ->
  beValue l = beValue l' -> l = l'.
Proof.
  revert l'. induction l as [|v l IH]; intros [|v' l'] L Hl Hl' E;
    try discriminate L; [reflexivity|].
  rewrite bytesOK_cons in Hl, Hl'.
  apply andb_true_iff in Hl as [Hv Hl].
  apply andb_true_iff in Hl' as [Hv' Hl'].
  apply isByte_range in Hv, Hv'.
  injection L as L.
  pose proof (beValue_range l Hl) as Hr.
  pose proof (beValue_range l' Hl') as Hr'.
  cbn [beValue] in E. rewrite <- L in E, Hr'.
  set (P := 256 ^ Z.of_nat (List.length l)) in *.
  assert (v = v') by nia. subst v'.
  f_equal. apply IH; try assumption. lia.
Qed.

Lemma bytesEqual_refl l : bytesEqual l l = true.
Proof.
  induction l as [|v l IH]; [reflexivity|].
  cbn [bytesEqual]. rewrite Z.eqb_refl, IH. reflexivity.
Qed.

Lemma beValue_zero n : beValue (repeat 0 n) = 0.
Proof.
  induction n as [|n IH]; [reflexivity|].
  cbn [repeat beValue]. rewrite IH. lia.
Qed.

Lemma bytesOK_zero n : bytesOK (repeat 0 n) = true.
Proof.
  induction n as [|n IH]; [reflexivity|].
  cbn [repeat]. rewrite bytesOK_cons, IH. reflexivity.
Qed.

(** A byte array other than the zero array has a value other than 0. *)
Lemma beValue_nonzero l :
  bytesOK l = true -> bytesEqual l (repeat 0 (List.length l)) = false ->
  beValue l <> 0.
Proof.
  intros Hl Hne E.
  assert (l = repeat 0 (List.length l)) as Hz.
  { apply beValue_inj; try assumption.
    - rewrite repeat_length. reflexivity.
    - apply bytesOK_zero.
    - rewrite beValue_zero. exact E. }
  rewrite <- Hz, bytesEqual_refl in Hne. discriminate Hne.
Qed.

End Bytes.

(** ** Decoded identifiers *)
Section Decoded.
Import strconv hex trace.

Lemma fromHexChar_range c a : fromHexChar c = Some a -> 0 <= a < 16.
Proof.
  unfold fromHexChar.
  destruct ((48 <=? c) && (c <=? 57)) eqn:E1;
    [|destruct ((97 <=? c) && (c <=? 102)) eqn:E2;
      [|destruct ((65 <=? c) && (c <=? 70)) eqn:E3]];
    intros E; try discriminate E; injection E as <-;
    match goal with
    | H : _ && _ = true |- _ => apply andb_true_iff in H as [?%Z.leb_le ?%Z.leb_le]
    end; lia.
Qed.

Lemma nibbles_byte a b :
  0 <= a < 16 -> 0 <= b < 16 -> isByte (Z.lor (Z.shiftl a 4) b) = true.
Proof.
  intros Ha Hb.
  assert (Hx : exists x, a = Z.of_nat x /\ (x < 16)%nat)
    by (exists (Z.to_nat a); lia).
  assert (Hy : exists y, b = Z.of_nat y /\ (y < 16)%nat)
    by (exists (Z.to_nat b); lia).
  destruct Hx as (x & -> & Hx). destruct Hy as (y & -> & Hy).
  do 16 (destruct x as [|x];
         [do 16 (destruct y as [|y]; [reflexivity|]); lia|]).
  lia.
Qed.

(** What [DecodeString] returns is a list of bytes. *)
Lemma DecodeString_bytesOK s :
  forall l, DecodeString s = Some l -> bytesOK l = true.
Proof.
  induction s as [| c | c d s IH] using string_pairs_ind; intros l Hl.
  - injection Hl as <-. reflexivity.
  - discriminate Hl.
  - rewrite DecodeString_cons2 in Hl.
    destruct (fromHexChar (byteOf c)) as [a|] eqn:Ea; [|discriminate Hl].
    destruct (fromHexChar (byteOf d)) as [b|] eqn:Eb; [|discriminate Hl].
    destruct (DecodeString s) as [rest|]; [|discriminate Hl].
    injection Hl as <-.
    rewrite bytesOK_cons, (IH rest eq_refl), andb_true_r.
    apply nibbles_byte; eapply fromHexChar_range; eassumption.
Qed.

Lemma decodeHex_inv h n l :
  String.length h = (2 * n)%nat ->
  decodeHex h (repeat 0 n) = Some l ->
  lowerHexOnly h = true /\ DecodeString h = Some l
  /\ EncodeToString l = h /\ List.length l = n /\ bytesOK l = true.
Proof.
  intros L E. unfold decodeHex in E.
  destruct (lowerHexOnly h) eqn:Hlow; [|discriminate E].
  destruct (DecodeString h) as [decoded|] eqn:Ed; [|discriminate E].
  destruct (EncodeToString_DecodeString h Hlow decoded Ed) as [Ee El].
  rewrite copy_same_length in E by (rewrite repeat_length; lia).
  injection E as <-.
  repeat split; try assumption; [lia | eapply DecodeString_bytesOK; eassumption].
Qed.

(** An identifier built by [TraceIDFromHex] is 16 bytes that read as the
    text it was built from. *)
Lemma TraceIDFromHex_inv h t :
  TraceIDFromHex h = (t, None) ->
  EncodeToString t = h /\ List.length t = 16%nat /\ bytesOK t = true
  /\ TraceID_IsValid t = true.
Proof.
  unfold TraceIDFromHex. intros E.
  destruct (Nat.eqb_spec (String.length h) 32) as [L|_]; [|discriminate E].
  cbn [negb] in E.
  destruct (decodeHex h nilTraceID) as [t'|] eqn:Ed; [|discriminate E].
  destruct (TraceID_IsValid t') eqn:Ev; cbn [negb] in E; [|discriminate E].
  injection E as <-.
  destruct (decodeHex_inv h 16 t' L Ed) as (_ & _ & Ee & El & Eb). auto.
Qed.

Lemma SpanIDFromHex_inv h s :
  SpanIDFromHex h = (s, None) ->
  EncodeToString s = h /\ List.length s = 8%nat /\ bytesOK s = true
  /\ SpanID_IsValid s = true.
Proof.
  unfold SpanIDFromHex. intros E.
  destruct (Nat.eqb_spec (String.length h) 16) as [L|_]; [|discriminate E].
  cbn [negb] in E.
  destruct (decodeHex h nilSpanID) as [s'|] eqn:Ed; [|discriminate E].
  destruct (SpanID_IsValid s') eqn:Ev; cbn [negb] in E; [|discriminate E].
  injection E as <-.
  destruct (decodeHex_inv h 8 s' L Ed) as (_ & _ & Ee & El & Eb). auto.
Qed.

Lemma append_inj_length s1 s2 t1 t2 :
  s1 +:+ s2 = t1 +:+ t2 -> String.length s1 = String.length t1 ->
  s1 = t1 /\ s2 = t2.
Proof.
  revert t1. induction s1 as [|c s1 IH]; intros [|d t1] E L;
    try discriminate L.
  - split; [reflexivity | exact E].
  - rewrite !append_cons in E. injection E as -> E. injection L as L.
    destruct (IH t1 E L) as [-> ->]. split; reflexivity.
Qed.

Lemma zeros_add a b : zeros (a + b) = zeros a +:+ zeros b.
Proof.
  induction a as [|a IH]; [reflexivity|].
  cbn [Nat.add zeros]. rewrite IH, append_cons. reflexivity.
Qed.

(** Eight bytes that read as the 16-character hex text of [u] have the
    value [u]. *)
Lemma beValue_of_hex16 l u :
  bytesOK l = true -> List.length l = 8%nat -> 0 <= u < 2 ^ 64 ->
  EncodeToString l = hex16 u -> beValue l = u.
Proof.
  intros Hl L Hu E.
  pose proof (ParseUint_EncodeToString l Hl ltac:(lia)) as P.
  rewrite E, ParseUint_hex16 in P by exact Hu.
  injection P as P. symmetry. exact P.
Qed.

Lemma bytesOK_app l l' : bytesOK (l ++ l') = bytesOK l && bytesOK l'.
Proof. apply forallb_app. Qed.

(** The 32-character padding of a 64-bit hex text is 16 zeros in front
    of its 16-character padding. *)
Lemma Sprintf_32_16 u :
  0 <= u < 2 ^ 64 ->
  fmt.Sprintf_0s 32 (FormatUint u 16) = zeros 16 +:+ hex16 u.
Proof.
  intros Hu. pose proof (length_FormatUint_16 u Hu) as L.
  unfold hex16, fmt.Sprintf_0s.
  replace (32 - String.length (FormatUint u 16))%nat
    with (16 + (16 - String.length (FormatUint u 16)))%nat by lia.
  rewrite zeros_add, append_assoc. reflexivity.
Qed.

(** The numbers behind the identifiers of the first two steps of
    [extract]: the trace identifier has zero high 64 bits and the parsed
    value in its low 64 bits; the span identifier has the parsed value. *)
Lemma traceIDStep_value traceID t :
  traceIDStep traceID = inl t ->
  exists u, ParseUint traceID 10 64 = (u, None) /\ u <> 0
    /\ List.length t = 16%nat /\ bytesOK t = true
    /\ firstn 8 t = repeat 0 8 /\ beValue (skipn 8 t) = u.
Proof.
  intros Et.
  destruct (traceIDStep_ok_inv _ _ Et) as (u & P & Hu & _ & _).
  pose proof (ParseUint_range _ _ _ _ P) as R.
  rewrite (traceIDStep_parsed _ _ P) in Et.
  destruct (TraceIDFromHex _) as [t' [e|]] eqn:Ef; [discriminate Et|].
  injection Et as ->.
  destruct (TraceIDFromHex_inv _ _ Ef) as (Ee & L & Hb & _).
  rewrite Sprintf_32_16 in Ee by exact R.
  rewrite <- (firstn_skipn 8 t) in Ee, Hb.
  rewrite EncodeToString_app in Ee. rewrite bytesOK_app in Hb.
  apply andb_true_iff in Hb as [Hb1 Hb2].
  assert (L1 : List.length (firstn 8 t) = 8%nat)
    by (rewrite length_firstn; lia).
  assert (L2 : List.length (skipn 8 t) = 8%nat)
    by (rewrite length_skipn; lia).
  apply append_inj_length in Ee as [E1 E2];
    [|rewrite length_EncodeToString, L1; reflexivity].
  exists u.
  split; [exact P|]. split; [exact Hu|]. split; [exact L|].
  split; [rewrite <- (firstn_skipn 8 t), bytesOK_app, Hb1, Hb2; reflexivity|].
  split.
  - apply beValue_inj;
      [rewrite L1, repeat_length; reflexivity | exact Hb1
       | apply bytesOK_zero |].
    rewrite beValue_zero.
    pose proof (ParseUint_EncodeToString _ Hb1 ltac:(lia)) as Q.
    rewrite E1, ParseUint_all_zeros in Q by lia.
    injection Q as Q. symmetry. exact Q.
  - apply beValue_of_hex16; assumption.
Qed.

Lemma spanIDStep_value spanID s :
  spanIDStep spanID = inl s ->
  exists v, ParseUint spanID 10 64 = (v, None) /\ v <> 0
    /\ List.length s = 8%nat /\ bytesOK s = true /\ beValue s = v.
Proof.
  intros Es.
  destruct (spanIDStep_ok_inv _ _ Es) as (v & P & Hv & _ & _).
  pose proof (ParseUint_range _ _ _ _ P) as R.
  rewrite (spanIDStep_parsed _ _ P) in Es.
  destruct (SpanIDFromHex _) as [s' [e|]] eqn:Ef; [discriminate Es|].
  injection Es as ->.
  destruct (SpanIDFromHex_inv _ _ Ef) as (Ee & L & Hb & _).
  exists v. repeat split; try assumption.
  apply beValue_of_hex16; assumption.
Qed.

End Decoded.

(** ** Identifiers through the codec *)
Section CodecOnIdentifiers.
Import strconv hex trace datadog.

Lemma bytesOK_skipn k l : bytesOK l = true -> bytesOK (skipn k l) = true.
Proof.
  intros Hl. rewrite <- (firstn_skipn k l), bytesOK_app in Hl.
  apply andb_true_iff in Hl as [_ Hl]. exact Hl.
Qed.

(** The header of a 16-byte trace identifier is the decimal text of its
    low 64 bits. *)
Lemma convertOTtoDD_TraceID_String t :
  List.length t = 16%nat ->
  convertOTtoDD (TraceID_String t)
  = match ParseUint (EncodeToString (skipn 8 t)) 16 64 with
    | (intValue, None) => FormatUint intValue 10
    | (_, Some _) => ""
    end.
Proof.
  intros L. unfold TraceID_String.
  rewrite convertOTtoDD_long by (rewrite length_EncodeToString; lia).
  pose proof (sliceFrom_EncodeToString 8 t) as E.
  change (2 * 8)%nat with 16%nat in E. rewrite E. reflexivity.
Qed.

Lemma convertOTtoDD_TraceID_value t :
  List.length t = 16%nat -> bytesOK t = true ->
  convertOTtoDD (TraceID_String t) = FormatUint (beValue (skipn 8 t)) 10.
Proof.
  intros L Hb. rewrite convertOTtoDD_TraceID_String by exact L.
  rewrite ParseUint_EncodeToString;
    [reflexivity | apply bytesOK_skipn; exact Hb | rewrite length_skipn; lia].
Qed.

Lemma convertOTtoDD_SpanID_value s :
  List.length s = 8%nat -> bytesOK s = true ->
  convertOTtoDD (SpanID_String s) = FormatUint (beValue s) 10.
Proof.
  intros L Hb. unfold SpanID_String.
  rewrite convertOTtoDD_16 by (rewrite length_EncodeToString; lia).
  rewrite ParseUint_EncodeToString; [reflexivity | exact Hb | lia].
Qed.

Lemma EncodeToString_nonempty l :
  (0 < List.length l)%nat -> String.eqb (EncodeToString l) "" = false.
Proof.
  destruct l as [|v l]; [cbn; lia | reflexivity].
Qed.

End CodecOnIdentifiers.

(** ** The injector *)
Section Injector.
Import strconv hex trace datadog.
Context {C : Type} `{TextMapCarrier C} {Ctx : Type} `{AmbientContext Ctx}.

(** What [Inject] does once both validity tests pass, for identifiers
    of 16 and 8 bytes. *)
Lemma Inject_valid_eq (ctx : Ctx) (carrier : C) :
  let sc := SpanContextFromContext ctx in
  TraceID_IsValid (traceID sc) = true -> SpanID_IsValid (spanID sc) = true ->
  List.length (traceID sc) = 16%nat -> List.length (spanID sc) = 8%nat ->
  Inject ctx carrier
  = Set_
      (Set_
         (Set_ carrier traceIDHeaderKey
            (convertOTtoDD (TraceID_String (traceID sc))))
         parentIDHeaderKey (convertOTtoDD (SpanID_String (spanID sc))))
      priorityHeaderKey (if IsSampled sc then isSampled else notSampled).
Proof.
  intros sc Vt Vs Lt Ls. unfold Inject. fold sc. rewrite Vt, Vs.
  cbn [negb orb]. unfold TraceID_String, SpanID_String.
  rewrite !EncodeToString_nonempty by lia. reflexivity.
Qed.

End Injector.

(** ** Further properties of the extractor and the codec *)

(** X1.  Which outcome [extract] has is decided by the three numbers
    read from its texts, in order: a trace-id text that [ParseUint]
    rejects gives [errMalformedTraceID], one that parses to 0 gives
    [errInvalidTraceIDHeader]; then the same for the span-id text; then
    a sampling text that [Atoi] rejects gives
    [errInvalidSamplingPriorityHeader]; otherwise there is no error. *)
Theorem X1_extract_error_table (traceID spanID sampled : string) :
  snd (datadog.extract traceID spanID sampled)
  = match strconv.ParseUint traceID 10 64 with
    | (_, Some _) => Some datadog.errMalformedTraceID
    | (u, None) =>
        if u =? 0 then Some datadog.errInvalidTraceIDHeader
        else
          match strconv.ParseUint spanID 10 64 with
          | (_, Some _) => Some datadog.errMalformedSpanID
          | (v, None) =>
              if v =? 0 then Some datadog.errInvalidSpanIDHeader
              else
                match strconv.Atoi sampled with
                | (_, Some _) => Some datadog.errInvalidSamplingPriorityHeader
                | (_, None) => None
                end
          end
    end.
Proof.
  rewrite extract_steps.
  destruct (strconv.ParseUint traceID 10 64) as [u [e|]] eqn:P.
  { unfold traceIDStep. rewrite (convertDDtoOT_fail _ _ _ P). reflexivity. }
  destruct (Z.eqb_spec u 0) as [->|Hu].
  { rewrite (traceIDStep_zero _ P). reflexivity. }
  destruct (traceIDStep_nonzero _ _ P Hu) as (t & -> & _).
  destruct (strconv.ParseUint spanID 10 64) as [v [e|]] eqn:Q.
  { unfold spanIDStep. rewrite (convertDDtoOT_fail _ _ _ Q). reflexivity. }
  destruct (Z.eqb_spec v 0) as [->|Hv].
  { rewrite (spanIDStep_zero _ Q). reflexivity. }
  destruct (spanIDStep_nonzero _ _ Q Hv) as (s & -> & _).
  destruct (strconv.Atoi sampled) as [n [e|]]; reflexivity.
Qed.

(** X2.  Whenever [extract] returns an error, the span context it
    returns with it is the zero span context. *)
Theorem X2_extract_error_gives_empty (traceID spanID sampled : string) :
  snd (datadog.extract traceID spanID sampled) = None
  \/ fst (datadog.extract traceID spanID sampled) = datadog.empty.
Proof.
  rewrite extract_steps.
  destruct (traceIDStep traceID); [|right; reflexivity].
  destruct (spanIDStep spanID); [|right; reflexivity].
  destruct (strconv.Atoi sampled) as [n [e|]];
    [right; reflexivity | left; reflexivity].
Qed.

(** X3.  What a span context extracted without an error holds: a
    16-byte trace identifier whose high 64 bits are zero and whose low
    64 bits are the number of the trace-id text, an 8-byte span
    identifier that is the number of the span-id text, both numbers
    other than 0, the sampled flag exactly when the sampling number is
    at least 1, and no remote mark; the span context is valid. *)
Theorem X3_extract_success_content
    (traceID spanID sampled : string) (sc : trace.SpanContext) :
  datadog.extract traceID spanID sampled = (sc, None) ->
  exists u v n,
    strconv.ParseUint traceID 10 64 = (u, None) /\ u <> 0
    /\ strconv.ParseUint spanID 10 64 = (v, None) /\ v <> 0
    /\ strconv.Atoi sampled = (n, None)
    /\ List.length (trace.traceID sc) = 16%nat
    /\ firstn 8 (trace.traceID sc) = repeat 0 8
    /\ beValue (skipn 8 (trace.traceID sc)) = u
    /\ List.length (trace.spanID sc) = 8%nat
    /\ beValue (trace.spanID sc) = v
    /\ trace.traceFlags sc = (if n >=? 1 then 1 else 0)
    /\ trace.remote sc = false
    /\ trace.IsValid sc = true.
Proof.
  intros E. pose proof (extract_ok_valid _ _ _ _ E) as V.
  rewrite extract_steps in E.
  destruct (traceIDStep traceID) as [t|e] eqn:Et; [|discriminate E].
  destruct (spanIDStep spanID) as [s|e] eqn:Es; [|discriminate E].
  destruct (strconv.Atoi sampled) as [n [e|]]; [discriminate E|].
  injection E as <-.
  destruct (traceIDStep_value _ _ Et) as (u & P & Hu & Lt & _ & Hhi & Hlo).
  destruct (spanIDStep_value _ _ Es) as (v & Q & Hv & Ls & _ & Hs).
  exists u, v, n. cbn [trace.NewSpanContext trace.traceID trace.spanID
                       trace.traceFlags trace.remote trace.cfgTraceID
                       trace.cfgSpanID trace.cfgTraceFlags trace.cfgRemote].
  repeat (split; [assumption || reflexivity|]). exact V.
Qed.

Lemma X3_extract_success_content_witness :
  exists u v n,
    strconv.ParseUint "123456789" 10 64 = (u, None) /\ u <> 0
    /\ strconv.ParseUint "987654321" 10 64 = (v, None) /\ v <> 0
    /\ strconv.Atoi "+7" = (n, None)
    /\ u = 123456789 /\ v = 987654321 /\ n = 7.
Proof.
  destruct (X3_extract_success_content "123456789" "987654321" "+7"
              (fst (datadog.extract "123456789" "987654321" "+7"))
              ltac:(vm_compute; reflexivity))
    as (u & v & n & P & Hu & Q & Hv & A & _).
  exists u, v, n.
  repeat (split; [assumption|]).
  vm_compute in P, Q, A.
  injection P as <-. injection Q as <-. injection A as <-.
  repeat split.
Defined.

(** X4.  What [convertDDtoOT] returns.  With [ok = true] the text is
    not empty, has at most 16 characters, all of them lower-case hex
    digits, and as a hex number it is the number the input is in
    decimal; with [ok = false] the text is empty. *)
Theorem X4_convertDDtoOT_shape (id h : string) (ok : bool) :
  datadog.convertDDtoOT id = (h, ok) ->
  if ok then
    h <> "" /\ (String.length h <= 16)%nat
    /\ trace.lowerHexOnly h = true
    /\ strconv.ParseUint h 16 64 = strconv.ParseUint id 10 64
  else h = "".
Proof.
  unfold datadog.convertDDtoOT.
  destruct (strconv.ParseUint id 10 64) as [u [e|]] eqn:P; intros E;
    injection E as <- <-; [reflexivity|].
  pose proof (ParseUint_range _ _ _ _ P) as R.
  split; [apply formatBits_nonempty|].
  split; [apply length_FormatUint_16; exact R|].
  split; [apply FormatUint_lowerHex; exact R|].
  apply ParseUint_FormatUint; lia.
Qed.

Lemma X4_convertDDtoOT_shape_witness :
  ("e7c71ff0c2c95a9d" <> ""
   /\ (String.length "e7c71ff0c2c95a9d" <= 16)%nat
   /\ trace.lowerHexOnly "e7c71ff0c2c95a9d" = true
   /\ strconv.ParseUint "e7c71ff0c2c95a9d" 16 64
      = strconv.ParseUint "16701352862047361693" 10 64)
  /\ fst (datadog.convertDDtoOT "18446744073709551616") = "".
Proof.
  split.
  - apply (X4_convertDDtoOT_shape "16701352862047361693" "e7c71ff0c2c95a9d" true).
    vm_compute. reflexivity.
  - apply (X4_convertDDtoOT_shape "18446744073709551616"
             (fst (datadog.convertDDtoOT "18446744073709551616")) false).
    vm_compute. reflexivity.
Defined.

(** X5.  What [convertOTtoDD] returns is either the empty text or the
    decimal text of a 64-bit number, and that text is never rejected by
    [convertDDtoOT]: decoding it gives the hex text of the same number. *)
Theorem X5_convertOTtoDD_output_decodes (id : string) :
  datadog.convertOTtoDD id = ""
  \/ exists u, 0 <= u < 2 ^ 64
       /\ datadog.convertOTtoDD id = strconv.FormatUint u 10
       /\ datadog.convertDDtoOT (datadog.convertOTtoDD id)
          = (strconv.FormatUint u 16, true).
Proof.
  unfold datadog.convertOTtoDD.
  destruct (String.length id <? 16)%nat; [left; reflexivity|].
  destruct (strconv.ParseUint _ 16 64) as [u [e|]] eqn:P; [left; reflexivity|].
  right. exists u. pose proof (ParseUint_range _ _ _ _ P) as R.
  split; [exact R|]. split; [reflexivity|].
  apply convertDDtoOT_ok. apply ParseUint_FormatUint; lia.
Qed.

(** X6.  The header of a trace identifier depends on its low 64 bits
    only: two 16-byte trace identifiers with the same last 8 bytes are
    encoded to the same text, the decimal text of those 8 bytes. *)
Theorem X6_trace_header_ignores_high_bits (t t' : trace.TraceID) :
  List.length t = 16%nat -> List.length t' = 16%nat ->
  bytesOK t = true ->
  skipn 8 t = skipn 8 t' ->
  datadog.convertOTtoDD (trace.TraceID_String t)
  = datadog.convertOTtoDD (trace.TraceID_String t')
  /\ datadog.convertOTtoDD (trace.TraceID_String t)
     = strconv.FormatUint (beValue (skipn 8 t)) 10.
Proof.
  intros L L' Hb E. split.
  - rewrite !convertOTtoDD_TraceID_String by assumption. rewrite E. reflexivity.
  - apply convertOTtoDD_TraceID_value; assumption.
Qed.

Lemma X6_trace_header_ignores_high_bits_witness :
  datadog.convertOTtoDD "b810dba29803ee61e7c71ff0c2c95a9d"
  = datadog.convertOTtoDD "0000000000000000e7c71ff0c2c95a9d"
  /\ datadog.convertOTtoDD "b810dba29803ee61e7c71ff0c2c95a9d"
     = "16701352862047361693".
Proof.
  exact (X6_trace_header_ignores_high_bits
           [184; 16; 219; 162; 152; 3; 238; 97; 231; 199; 31; 240; 194; 201; 90; 157]
           [0; 0; 0; 0; 0; 0; 0; 0; 231; 199; 31; 240; 194; 201; 90; 157]
           eq_refl eq_refl eq_refl eq_refl).
Defined.

(** ** Injection and extraction on a map carrier *)
Section OnMapCarrier.
Import strconv hex trace datadog.

Lemma keys_distinct :
  traceIDHeaderKey <> parentIDHeaderKey
  /\ traceIDHeaderKey <> priorityHeaderKey
  /\ parentIDHeaderKey <> priorityHeaderKey.
Proof. repeat split; discriminate. Qed.

(** Reading back the three fields written last. *)
Lemma Get_three (m : gmap string string) (a b f : string) :
  let m' :=
    Set_ (Set_ (Set_ m traceIDHeaderKey a) parentIDHeaderKey b)
      priorityHeaderKey f in
  Get m' traceIDHeaderKey = a /\ Get m' parentIDHeaderKey = b
  /\ Get m' priorityHeaderKey = f.
Proof.
  destruct keys_distinct as (N1 & N2 & N3).
  cbn [Get Set_ MapCarrier]. repeat split.
  - rewrite lookup_insert_ne, lookup_insert_ne, lookup_insert_eq by congruence.
    reflexivity.
  - rewrite lookup_insert_ne, lookup_insert_eq by congruence. reflexivity.
  - rewrite lookup_insert_eq. reflexivity.
Qed.

(** [extract] on the decimal texts of two non-zero numbers: the
    identifiers are the byte arrays of those numbers. *)
Lemma extract_of_values (low s : list Z) (sampled : string) (n : Z) :
  List.length low = 8%nat -> bytesOK low = true -> beValue low <> 0 ->
  List.length s = 8%nat -> bytesOK s = true -> beValue s <> 0 ->
  Atoi sampled = (n, None) ->
  extract (FormatUint (beValue low) 10) (FormatUint (beValue s) 10) sampled
  = ({| traceID := (repeat 0 8 ++ low)%list; spanID := s;
        traceFlags := if n >=? 1 then FlagsSampled else 0;
        remote := false |}, None).
Proof.
  intros Ll Hl Nl Ls Hs Ns A.
  pose proof (beValue_range low Hl) as Rl. rewrite Ll in Rl.
  pose proof (beValue_range s Hs) as Rs. rewrite Ls in Rs.
  change (256 ^ Z.of_nat 8) with (2 ^ 64) in Rl, Rs.
  assert (P : ParseUint (FormatUint (beValue low) 10) 10 64 = (beValue low, None))
    by (apply ParseUint_FormatUint; lia).
  assert (Q : ParseUint (FormatUint (beValue s) 10) 10 64 = (beValue s, None))
    by (apply ParseUint_FormatUint; lia).
  destruct (traceIDStep_nonzero _ _ P Nl) as (t' & Et & _).
  destruct (spanIDStep_nonzero _ _ Q Ns) as (s' & Es & _).
  destruct (traceIDStep_value _ _ Et) as (u & P' & _ & Lt' & Ht' & Hhi & Hlo).
  destruct (spanIDStep_value _ _ Es) as (v & Q' & _ & Ls' & Hs' & Hv).
  rewrite P in P'. injection P' as <-.
  rewrite Q in Q'. injection Q' as <-.
  assert (s' = s) as ->
    by (apply beValue_inj; [congruence | assumption | assumption | exact Hv]).
  assert (skipn 8 t' = low) as Hsk.
  { apply beValue_inj;
      [rewrite length_skipn; lia | apply bytesOK_skipn; exact Ht'
       | exact Hl | exact Hlo]. }
  assert (t' = (repeat 0 8 ++ low)%list) as ->
    by (rewrite <- (firstn_skipn 8 t'), Hhi, Hsk; reflexivity).
  rewrite extract_steps, Et, Es, A. reflexivity.
Qed.

End OnMapCarrier.

(** X7.  For a context whose span context has a valid 16-byte trace
    identifier and a valid 8-byte span identifier, [Inject] sets the
    three fields, in this order: the trace-id field to the decimal text
    of the low 64 bits of the trace identifier, the parent-id field to
    the decimal text of the span identifier, and the sampling field to
    [1] if the span context is sampled and to [0] otherwise. *)
Theorem X7_Inject_writes_decimal_values
    {C : Type} `{TextMapCarrier C} {Ctx : Type} `{AmbientContext Ctx}
    (ctx : Ctx) (carrier : C) :
  let sc := SpanContextFromContext ctx in
  trace.TraceID_IsValid (trace.traceID sc) = true ->
  trace.SpanID_IsValid (trace.spanID sc) = true ->
  List.length (trace.traceID sc) = 16%nat -> bytesOK (trace.traceID sc) = true ->
  List.length (trace.spanID sc) = 8%nat -> bytesOK (trace.spanID sc) = true ->
  datadog.Inject ctx carrier
  = Set_
      (Set_
         (Set_ carrier datadog.traceIDHeaderKey
            (strconv.FormatUint (beValue (skipn 8 (trace.traceID sc))) 10))
         datadog.parentIDHeaderKey
         (strconv.FormatUint (beValue (trace.spanID sc)) 10))
      datadog.priorityHeaderKey (if trace.IsSampled sc then "1" else "0").
Proof.
  intros sc Vt Vs Lt Bt Ls Bs.
  rewrite Inject_valid_eq by assumption. fold sc.
  rewrite convertOTtoDD_TraceID_value, convertOTtoDD_SpanID_value by assumption.
  reflexivity.
Qed.

Lemma X7_Inject_writes_decimal_values_witness :
  let sc :=
    {| trace.traceID :=
         [184; 16; 219; 162; 152; 3; 238; 97; 231; 199; 31; 240; 194; 201; 90; 157];
       trace.spanID := [40; 201; 119; 108; 18; 65; 65; 52];
       trace.traceFlags := 1;
       trace.remote := false |} in
  datadog.Inject (WithSpan Background sc) (∅ : gmap string string)
  = <[ datadog.priorityHeaderKey := "1" ]>
      (<[ datadog.parentIDHeaderKey := "2939011537882399028" ]>
         (<[ datadog.traceIDHeaderKey := "16701352862047361693" ]> ∅)).
Proof.
  intros sc.
  exact (X7_Inject_writes_decimal_values (WithSpan Background sc)
           (∅ : gmap string string)
           eq_refl eq_refl eq_refl eq_refl eq_refl eq_refl).
Defined.

(** X8.  [Inject] touches no field of a map carrier other than the
    three of [Fields]: every other key reads as before. *)
Theorem X8_Inject_touches_only_Fields
    {Ctx : Type} `{AmbientContext Ctx}
    (ctx : Ctx) (carrier : gmap string string) (key : string) :
  key ∉ datadog.Fields ->
  datadog.Inject ctx carrier !! key = carrier !! key.
Proof.
  intros Hk. unfold datadog.Fields in Hk.
  apply not_elem_of_cons in Hk as [N1 Hk].
  apply not_elem_of_cons in Hk as [N2 Hk].
  apply not_elem_of_cons in Hk as [N3 _].
  unfold datadog.Inject.
  destruct (_ || _); [reflexivity|].
  destruct (_ || _); [reflexivity|].
  cbn [Set_ MapCarrier].
  rewrite !lookup_insert_ne by congruence. reflexivity.
Qed.

Lemma X8_Inject_touches_only_Fields_witness :
  let sc :=
    {| trace.traceID :=
         [184; 16; 219; 162; 152; 3; 238; 97; 231; 199; 31; 240; 194; 201; 90; 157];
       trace.spanID := [40; 201; 119; 108; 18; 65; 65; 52];
       trace.traceFlags := 1;
       trace.remote := false |} in
  let carrier : gmap string string := {[ "traceparent" := "00-ab-cd-01" ]} in
  datadog.Inject (WithSpan Background sc) carrier !! "traceparent"
  = Some "00-ab-cd-01".
Proof.
  intros sc carrier.
  rewrite (X8_Inject_touches_only_Fields (WithSpan Background sc) carrier
             "traceparent").
  - reflexivity.
  - unfold datadog.Fields. rewrite !not_elem_of_cons.
    repeat split; try discriminate. apply not_elem_of_nil.
Defined.

(** X9.  Injecting twice from the same context into a map carrier is
    the same as injecting once. *)
Theorem X9_Inject_idempotent
    {Ctx : Type} `{AmbientContext Ctx}
    (ctx : Ctx) (carrier : gmap string string) :
  datadog.Inject ctx (datadog.Inject ctx carrier) = datadog.Inject ctx carrier.
Proof.
  unfold datadog.Inject.
  destruct (_ || _); [reflexivity|].
  destruct (_ || _); [reflexivity|].
  cbn [Set_ MapCarrier].
  apply map_eq. intros k. rewrite !lookup_insert.
  repeat case_decide; reflexivity.
Qed.

(** X10.  Inject followed by Extract on a map carrier.  For a span
    context with a 16-byte trace identifier whose low 64 bits are not
    zero and a valid 8-byte span identifier, extracting from the carrier
    [Inject] wrote attaches a remote span context with the same span
    identifier, the low 64 bits of the trace identifier under zero high
    64 bits, and the sampled flag alone of the trace flags. *)
Theorem X10_Inject_then_Extract
    {Ctx : Type} `{AmbientContext Ctx}
    (ctx1 ctx2 : Ctx) (carrier : gmap string string) :
  let sc := SpanContextFromContext ctx1 in
  List.length (trace.traceID sc) = 16%nat -> bytesOK (trace.traceID sc) = true ->
  beValue (skipn 8 (trace.traceID sc)) <> 0 ->
  List.length (trace.spanID sc) = 8%nat -> bytesOK (trace.spanID sc) = true ->
  trace.SpanID_IsValid (trace.spanID sc) = true ->
  datadog.Extract ctx2 (datadog.Inject ctx1 carrier)
  = ContextWithRemoteSpanContext ctx2
      {| trace.traceID := (repeat 0 8 ++ skipn 8 (trace.traceID sc))%list;
         trace.spanID := trace.spanID sc;
         trace.traceFlags := if trace.IsSampled sc then 1 else 0;
         trace.remote := false |}.
Proof.
  intros sc Lt Bt Nlow Ls Bs Vs.
  assert (Vt : trace.TraceID_IsValid (trace.traceID sc) = true).
  { unfold trace.TraceID_IsValid.
    destruct (trace.bytesEqual (trace.traceID sc) trace.nilTraceID) eqn:E;
      [|reflexivity].
    apply bytesEqual_eq in E. rewrite E in Nlow. now contradiction Nlow. }
  assert (Ns : beValue (trace.spanID sc) <> 0).
  { apply beValue_nonzero; [exact Bs|]. rewrite Ls.
    unfold trace.SpanID_IsValid, trace.nilSpanID in Vs.
    destruct (trace.bytesEqual _ _); [discriminate Vs | reflexivity]. }
  rewrite Inject_valid_eq by assumption. fold sc.
  rewrite convertOTtoDD_TraceID_value, convertOTtoDD_SpanID_value by assumption.
  unfold datadog.Extract.
  match goal with
  | |- context [Get (Set_ (Set_ (Set_ ?m _ ?a) _ ?b) _ ?f)] =>
      destruct (Get_three m a b f) as (-> & -> & ->)
  end.
  assert (A : exists n,
             strconv.Atoi (if trace.IsSampled sc
                           then datadog.isSampled else datadog.notSampled)
             = (n, None)
             /\ (if n >=? 1 then trace.FlagsSampled else 0)
                = (if trace.IsSampled sc then 1 else 0)).
  { destruct (trace.IsSampled sc); [exists 1 | exists 0]; split; reflexivity. }
  destruct A as (n & A & Fl).
  assert (Lsk : List.length (skipn 8 (trace.traceID sc)) = 8%nat)
    by (rewrite length_skipn; lia).
  pose proof (bytesOK_skipn 8 _ Bt) as Bsk.
  rewrite (extract_of_values _ _ _ n Lsk Bsk Nlow Ls Bs Ns A).
  rewrite Fl.
  match goal with
  | |- (if _ || negb (trace.IsValid ?x) then _ else _) = _ =>
      replace (trace.IsValid x) with true; [reflexivity|]
  end.
  symmetry. unfold trace.IsValid. cbn [trace.traceID trace.spanID].
  rewrite Vs, andb_true_r. unfold trace.TraceID_IsValid.
  destruct (trace.bytesEqual _ trace.nilTraceID) eqn:E; [|reflexivity].
  apply bytesEqual_eq in E.
  apply (f_equal (skipn 8)) in E.
  change (skipn 8 (trace.traceID sc) = repeat 0 8) in E.
  rewrite E in Nlow. now contradiction Nlow.
Qed.

Lemma X10_Inject_then_Extract_witness :
  let sc :=
    {| trace.traceID :=
         [184; 16; 219; 162; 152; 3; 238; 97; 231; 199; 31; 240; 194; 201; 90; 157];
       trace.spanID := [40; 201; 119; 108; 18; 65; 65; 52];
       trace.traceFlags := 3;
       trace.remote := false |} in
  datadog.Extract Background
    (datadog.Inject (WithSpan Background sc) (∅ : gmap string string))
  = WithSpan Background
      {| trace.traceID :=
           [0; 0; 0; 0; 0; 0; 0; 0; 231; 199; 31; 240; 194; 201; 90; 157];
         trace.spanID := [40; 201; 119; 108; 18; 65; 65; 52];
         trace.traceFlags := 1;
         trace.remote := true |}.
Proof.
  intros sc.
  rewrite (X10_Inject_then_Extract (WithSpan Background sc) Background ∅);
    try reflexivity.
  vm_compute. discriminate.
Defined.

(** X11.  A trace identifier whose low 64 bits are zero does not
    survive: for a valid 16-byte trace identifier whose last 8 bytes are
    zero and a valid 8-byte span identifier, [Inject] writes [0] in the
    trace-id field of a map carrier, and [Extract] on that carrier
    returns the context it was given. *)
Theorem X11_zero_low_bits_not_recovered
    {Ctx : Type} `{AmbientContext Ctx}
    (ctx1 ctx2 : Ctx) (carrier : gmap string string) :
  let sc := SpanContextFromContext ctx1 in
  trace.TraceID_IsValid (trace.traceID sc) = true ->
  List.length (trace.traceID sc) = 16%nat ->
  skipn 8 (trace.traceID sc) = repeat 0 8 ->
  trace.SpanID_IsValid (trace.spanID sc) = true ->
  List.length (trace.spanID sc) = 8%nat ->
  datadog.Inject ctx1 carrier !! datadog.traceIDHeaderKey = Some "0"
  /\ datadog.Extract ctx2 (datadog.Inject ctx1 carrier) = ctx2.
Proof.
  intros sc Vt Lt Zlow Vs Ls.
  rewrite Inject_valid_eq by assumption. fold sc.
  rewrite convertOTtoDD_TraceID_String, Zlow by assumption.
  change (match strconv.ParseUint (hex.EncodeToString (repeat 0 8)) 16 64 with
          | (intValue, None) => strconv.FormatUint intValue 10
          | (_, Some _) => ""
          end) with "0".
  destruct keys_distinct as (N1 & N2 & N3).
  split.
  - cbn [Set_ MapCarrier].
    rewrite lookup_insert_ne, lookup_insert_ne, lookup_insert_eq by congruence.
    reflexivity.
  - unfold datadog.Extract.
    match goal with
    | |- context [Get (Set_ (Set_ (Set_ ?m _ ?a) _ ?b) _ ?f)] =>
        destruct (Get_three m a b f) as (-> & -> & ->)
    end.
    reflexivity.
Qed.

Lemma X11_zero_low_bits_not_recovered_witness :
  let sc :=
    {| trace.traceID := [184; 16; 219; 162; 152; 3; 238; 97; 0; 0; 0; 0; 0; 0; 0; 0];
       trace.spanID := [40; 201; 119; 108; 18; 65; 65; 52];
       trace.traceFlags := 1;
       trace.remote := false |} in
  let parent := WithValue Background "request-id" "42" in
  datadog.Inject (WithSpan Background sc) (∅ : gmap string string)
    !! datadog.traceIDHeaderKey = Some "0"
  /\ datadog.Extract parent
       (datadog.Inject (WithSpan Background sc) (∅ : gmap string string))
     = parent.
Proof.
  intros sc parent.
  exact (X11_zero_low_bits_not_recovered (WithSpan Background sc) parent ∅
           eq_refl eq_refl eq_refl eq_refl eq_refl).
Defined.

(** X12.  [Extract] needs all three fields: on a map carrier that lacks
    the trace-id field, the parent-id field or the sampling field, it
    returns the context it was given. *)
Theorem X12_Extract_needs_all_fields
    {Ctx : Type} `{AmbientContext Ctx}
    (ctx : Ctx) (carrier : gmap string string) :
  carrier !! datadog.traceIDHeaderKey = None
  \/ carrier !! datadog.parentIDHeaderKey = None
  \/ carrier !! datadog.priorityHeaderKey = None ->
  datadog.Extract ctx carrier = ctx.
Proof.
  intros Hmiss. unfold datadog.Extract. cbn [Get MapCarrier].
  destruct Hmiss as [E|[E|E]]; rewrite E; cbn [default].
  - reflexivity.
  - rewrite extract_steps.
    destruct (traceIDStep _); reflexivity.
  - rewrite extract_steps.
    destruct (traceIDStep _); [|reflexivity].
    destruct (spanIDStep _); reflexivity.
Qed.

Lemma X12_Extract_needs_all_fields_witness :
  let parent := WithValue Background "request-id" "42" in
  let noTrace : gmap string string :=
    <[ datadog.parentIDHeaderKey := "6023947403358210776" ]>
      {[ datadog.priorityHeaderKey := "1" ]} in
  let noParent : gmap string string :=
    <[ datadog.traceIDHeaderKey := "8778793551513751462" ]>
      {[ datadog.priorityHeaderKey := "1" ]} in
  let noSampling : gmap string string :=
    <[ datadog.traceIDHeaderKey := "8778793551513751462" ]>
      {[ datadog.parentIDHeaderKey := "6023947403358210776" ]} in
  datadog.Extract parent noTrace = parent
  /\ datadog.Extract parent noParent = parent
  /\ datadog.Extract parent noSampling = parent.
Proof.
  intros parent noTrace noParent noSampling.
  split; [|split].
  - apply (X12_Extract_needs_all_fields parent noTrace).
    left. vm_compute. reflexivity.
  - apply (X12_Extract_needs_all_fields parent noParent).
    right. left. vm_compute. reflexivity.
  - apply (X12_Extract_needs_all_fields parent noSampling).
    right. right. vm_compute. reflexivity.
Defined.

(** X13.  What [Extract] can return: the context it was given, or that
    context with one span context attached which is marked remote, is
    valid, and has a trace identifier with zero high 64 bits. *)
Theorem X13_Extract_result_shape
    {C : Type} `{TextMapCarrier C} (ctx : Context) (carrier : C) :
  datadog.Extract ctx carrier = ctx
  \/ exists sc,
       datadog.Extract ctx carrier = WithSpan ctx sc
       /\ trace.remote sc = true
       /\ trace.IsValid sc = true
       /\ firstn 8 (trace.traceID sc) = repeat 0 8
       /\ SpanContextFromContext (datadog.Extract ctx carrier) = sc.
Proof.
  unfold datadog.Extract.
  destruct (datadog.extract _ _ _) as [sc [e|]] eqn:E; [left; reflexivity|].
  pose proof (extract_ok_valid _ _ _ _ E) as V.
  rewrite extract_steps in E.
  destruct (traceIDStep _) as [t|e] eqn:Et; [|discriminate E].
  destruct (spanIDStep _) as [s|e]; [|discriminate E].
  destruct (strconv.Atoi _) as [n [e|]]; [discriminate E|].
  injection E as <-.
  destruct (traceIDStep_value _ _ Et) as (u & _ & _ & _ & _ & Hhi & _).
  right. rewrite V. cbn [negb orb].
  eexists. split; [reflexivity|].
  repeat split; [exact V | exact Hhi].
Qed.

(** X14.  After [Inject] from a span context with a valid 16-byte trace
    identifier and a valid 8-byte span identifier, the keys of a map
    carrier are the keys it had together with the three of [Fields]. *)
Theorem X14_Inject_keys
    {Ctx : Type} `{AmbientContext Ctx}
    (ctx : Ctx) (carrier : gmap string string) :
  let sc := SpanContextFromContext ctx in
  trace.TraceID_IsValid (trace.traceID sc) = true ->
  trace.SpanID_IsValid (trace.spanID sc) = true ->
  List.length (trace.traceID sc) = 16%nat ->
  List.length (trace.spanID sc) = 8%nat ->
  dom (datadog.Inject ctx carrier) = dom carrier ∪ list_to_set datadog.Fields.
Proof.
  intros sc Vt Vs Lt Ls.
  rewrite Inject_valid_eq by assumption.
  cbn [Set_ MapCarrier]. rewrite !dom_insert_L.
  unfold datadog.Fields. cbn [list_to_set]. set_solver.
Qed.

Lemma X14_Inject_keys_witness :
  let sc :=
    {| trace.traceID :=
         [184; 16; 219; 162; 152; 3; 238; 97; 231; 199; 31; 240; 194; 201; 90; 157];
       trace.spanID := [40; 201; 119; 108; 18; 65; 65; 52];
       trace.traceFlags := 1;
       trace.remote := false |} in
  let carrier : gmap string string := {[ "traceparent" := "00-ab-cd-01" ]} in
  dom (datadog.Inject (WithSpan Background sc) carrier)
  = dom carrier ∪ list_to_set datadog.Fields.
Proof.
  intros sc carrier.
  exact (X14_Inject_keys (WithSpan Background sc) carrier
           eq_refl eq_refl eq_refl eq_refl).
Defined.

(** X15.  Extract followed by Inject.  When the three fields of a map
    carrier hold the decimal texts of two non-zero 64-bit numbers and a
    sampling text that [Atoi] accepts, injecting from the context
    [Extract] returns writes the same two numbers in their shortest
    decimal form, and [1] or [0] for the sampling field according to
    whether the sampling number is at least 1. *)
Theorem X15_Extract_then_Inject
    (ctx : Context) (carrier out : gmap string string) (u v n : Z) :
  strconv.ParseUint (Get carrier datadog.traceIDHeaderKey) 10 64 = (u, None) ->
  u <> 0 ->
  strconv.ParseUint (Get carrier datadog.parentIDHeaderKey) 10 64 = (v, None) ->
  v <> 0 ->
  strconv.Atoi (Get carrier datadog.priorityHeaderKey) = (n, None) ->
  datadog.Inject (datadog.Extract ctx carrier) out
  = <[ datadog.priorityHeaderKey := if n >=? 1 then "1" else "0" ]>
      (<[ datadog.parentIDHeaderKey := strconv.FormatUint v 10 ]>
         (<[ datadog.traceIDHeaderKey := strconv.FormatUint u 10 ]> out)).
Proof.
  intros P Hu Q Hv A.
  destruct (traceIDStep_nonzero _ _ P Hu) as (t & Et & _ & Vt).
  destruct (spanIDStep_nonzero _ _ Q Hv) as (s & Es & _ & Vs).
  destruct (traceIDStep_value _ _ Et) as (u' & P' & _ & Lt & Bt & _ & Hlo).
  destruct (spanIDStep_value _ _ Es) as (v' & Q' & _ & Ls & Bs & Hs).
  rewrite P in P'. injection P' as <-.
  rewrite Q in Q'. injection Q' as <-.
  unfold datadog.Extract.
  rewrite extract_steps, Et, Es, A.
  unfold trace.IsValid at 1. cbn [trace.NewSpanContext trace.traceID trace.spanID
    trace.cfgTraceID trace.cfgSpanID].
  rewrite Vt, Vs. cbn [negb orb andb ContextWithRemoteSpanContext ChainContext].
  rewrite Inject_valid_eq by assumption.
  cbn [SpanContextFromContext ChainContext spanContextOf trace.WithRemote
       trace.NewSpanContext trace.traceID trace.spanID trace.cfgTraceID
       trace.cfgSpanID].
  rewrite convertOTtoDD_TraceID_value, convertOTtoDD_SpanID_value by assumption.
  rewrite Hlo, Hs. cbn [Set_ MapCarrier].
  destruct (n >=? 1); reflexivity.
Qed.

Lemma X15_Extract_then_Inject_witness :
  let carrier : gmap string string :=
    <[ datadog.traceIDHeaderKey := "000123456789" ]>
      (<[ datadog.parentIDHeaderKey := "987654321" ]>
         {[ datadog.priorityHeaderKey := "+2" ]}) in
  datadog.Inject (datadog.Extract Background carrier) (∅ : gmap string string)
  = <[ datadog.priorityHeaderKey := "1" ]>
      (<[ datadog.parentIDHeaderKey := "987654321" ]>
         (<[ datadog.traceIDHeaderKey := "123456789" ]> ∅)).
Proof.
  intros carrier.
  rewrite (X15_Extract_then_Inject Background carrier ∅ 123456789 987654321 2);
    try (vm_compute; reflexivity); lia.
Defined.
